(** * Briefly: message cache, conversation truncation and summarization

    A shallow embedding of [src/config.py], [src/summarizer.py] and
    [src/bot.py], and the properties of the cache policy, of the truncation
    algorithm and of the summarization client's failure handling.

    Conventions.
    - A Python [str] is a [string]; one [ascii] stands for one code point
      below 256, and [len] is [String.length].
    - A Python [int] is a [Z].
    - A message dictionary is a record whose fields are optional: the source
      reads it with [dict.get(key, default)], and an absent key is [None].
    - [message_cache] is a finite map from channel identifiers to lists. *)

From Stdlib Require Import ZArith Lia Ascii String.
From stdpp Require Import base option list gmap strings.

Local Open Scope Z_scope.

(** ** Python strings *)

Module PyStr.

(** [len(s)] *)
Definition len (s : string) : Z := Z.of_nat (String.length s).

(** [c.isspace()] for a code point below 256: TAB..CR, FS..US, SPACE,
    NEL (0x85) and NBSP (0xA0). *)
Definition isspace (c : ascii) : bool :=
  let n := N_of_ascii c in
  ((9 <=? n) && (n <=? 13) || (28 <=? n) && (n <=? 32)
   || (n =? 133) || (n =? 160))%N.

(** [s.lstrip()] *)
Fixpoint lstrip (s : string) : string :=
  match s with
  | EmptyString => EmptyString
  | String c s' => if isspace c then lstrip s' else s
  end.

(** [s.rstrip()] *)
Fixpoint rstrip (s : string) : string :=
  match s with
  | EmptyString => EmptyString
  | String c s' =>
      match rstrip s' with
      | EmptyString => if isspace c then EmptyString else String c EmptyString
      | r => String c r
      end
  end.

(** [s.strip()] *)
Definition strip (s : string) : string := rstrip (lstrip s).

(** Truthiness of a string: [bool(s)]. *)
Definition truthy (s : string) : bool :=
  match s with EmptyString => false | String _ _ => true end.

(** [sep.join(parts)] *)
Fixpoint join (sep : string) (parts : list string) : string :=
  match parts with
  | [] => EmptyString
  | [p] => p
  | p :: ps => p +:+ sep +:+ join sep ps
  end.

(** The one-character string ["\n"]. *)
Definition nl : string := String (ascii_of_N 10) EmptyString.

End PyStr.

(** ** Python list slicing *)

(** [l[start:]] for an arbitrary integer [start]: a negative index counts
    from the end, and both ends are clamped to the list. *)
Definition py_slice_from {A} (start : Z) (l : list A) : list A :=
  let n := Z.of_nat (length l) in
  let i := if start <? 0 then Z.max (start + n) 0 else Z.min start n in
  drop (Z.to_nat i) l.

(** ** config.py *)

Section Configuration.
(** [TEMPERATURE] is a Python [float] that is only passed through to the
    inference service; its type is left abstract. *)
Variable float : Type.

Record Config := {
  DISCORD_TOKEN : option string;
  OLLAMA_HOST : string;
  OLLAMA_MODEL : string;
  BOT_PREFIX : string;
  MAX_MESSAGES_TO_SUMMARIZE : Z;
  MAX_MESSAGE_LENGTH : Z;
  MAX_TOKENS : Z;
  TEMPERATURE : float
}.
End Configuration.

Arguments DISCORD_TOKEN {float} _.
Arguments OLLAMA_HOST {float} _.
Arguments OLLAMA_MODEL {float} _.
Arguments BOT_PREFIX {float} _.
Arguments MAX_MESSAGES_TO_SUMMARIZE {float} _.
Arguments MAX_MESSAGE_LENGTH {float} _.
Arguments MAX_TOKENS {float} _.
Arguments TEMPERATURE {float} _.

(** A binary floating-point number [mantissa * 2 ^ exponent]. *)
Record dyadic := { mantissa : Z; exponent : Z }.

(** The configuration when no environment variable is set.  [float('0.3')]
    is the double [5404319552844595 * 2 ^ -54]. *)
Definition default_config : Config dyadic :=
  {| DISCORD_TOKEN := None;
     OLLAMA_HOST := "http://localhost:11434";
     OLLAMA_MODEL := "mistral";
     BOT_PREFIX := "!";
     MAX_MESSAGES_TO_SUMMARIZE := 50;
     MAX_MESSAGE_LENGTH := 2000;
     MAX_TOKENS := 500;
     TEMPERATURE := {| mantissa := 5404319552844595; exponent := -54 |} |}.

(** The same configuration with another bound on the cache. *)
Definition config_with_cache_bound (n : Z) : Config dyadic :=
  {| DISCORD_TOKEN := DISCORD_TOKEN default_config;
     OLLAMA_HOST := OLLAMA_HOST default_config;
     OLLAMA_MODEL := OLLAMA_MODEL default_config;
     BOT_PREFIX := BOT_PREFIX default_config;
     MAX_MESSAGES_TO_SUMMARIZE := n;
     MAX_MESSAGE_LENGTH := MAX_MESSAGE_LENGTH default_config;
     MAX_TOKENS := MAX_TOKENS default_config;
     TEMPERATURE := TEMPERATURE default_config |}.

(** ** Messages *)

(** The dictionaries built by [cache_message] and [get_recent_messages] have
    the keys ['author'], ['content'] and ['timestamp']. *)
Record Message := {
  author : option string;
  content : option string;
  timestamp : option Z
}.

(** [d.get(key, default)] on an optional field. *)
Definition get {A} (field : option A) (dflt : A) : A := default dflt field.

(** The dictionary [{'author': a, 'content': c, 'timestamp': t}]. *)
Definition mk_message (a c : string) (t : Z) : Message :=
  {| author := Some a; content := Some c; timestamp := Some t |}.

(** A message in the sense of the data model: author and content present. *)
Definition well_formed (m : Message) : Prop :=
  is_Some (author m) ∧ is_Some (content m).

(** ** summarizer.py: truncate_conversation *)

(** [f"{msg.get('author', '')}: {msg.get('content', '')}\n"] *)
Definition msg_content (msg : Message) : string :=
  get (author msg) "" +:+ ": " +:+ get (content msg) "" +:+ PyStr.nl.

Definition msg_length (msg : Message) : Z := PyStr.len (msg_content msg).

(** The body of [for msg in reversed(messages)]: [pending] is what the
    reverse iterator has not yet produced, most recent first. *)
Fixpoint truncate_loop (max_length : Z) (pending : list Message)
    (truncated_messages : list Message) (current_length : Z) : list Message :=
  match pending with
  | [] => truncated_messages
  | msg :: pending' =>
      if current_length + msg_length msg <=? max_length
      then truncate_loop max_length pending'
             (msg :: truncated_messages) (current_length + msg_length msg)
      else truncated_messages
  end.

Definition truncate_conversation {float} (cfg : Config float)
    (messages : list Message) (max_length : option Z) : list Message :=
  let max_length := get max_length (MAX_MESSAGE_LENGTH cfg) in
  truncate_loop max_length (reverse messages) [] 0.

(** *** truncate_conversation on the object heap

    Python lists and dictionaries are objects with an identity; a list holds
    references.  The heap version of [truncate_conversation] makes explicit
    which objects the function reads, allocates and writes. *)

Definition loc := positive.

Inductive pyobj :=
| PyList (items : list loc)
| PyDict (d : Message).

Definition as_list (o : pyobj) : option (list loc) :=
  match o with PyList items => Some items | PyDict _ => None end.

Definition as_dict (o : pyobj) : option Message :=
  match o with PyDict d => Some d | PyList _ => None end.

(** [lst.insert(0, r)] on a list object; other objects are left alone. *)
Definition insert_front (r : loc) (o : pyobj) : pyobj :=
  match o with PyList items => PyList (r :: items) | PyDict d => PyDict d end.

(** The loop over [reversed(messages)].  The reverse iterator keeps the list
    object and an index; [idx] is that index plus one.  Every step reads the
    list object again, and the iterator stops when the index is out of
    range.  [None] is a run that touches a missing or ill-typed object. *)
Fixpoint truncate_steps (max_length : Z) (messages out : loc) (idx : nat)
    (current_length : Z) (h : gmap loc pyobj) : option (gmap loc pyobj) :=
  match idx with
  | O => Some h
  | S i =>
      match h !! messages ≫= as_list with
      | None => None
      | Some items =>
          match items !! i with
          | None => Some h
          | Some r =>
              match h !! r ≫= as_dict with
              | None => None
              | Some msg =>
                  if current_length + msg_length msg <=? max_length
                  then truncate_steps max_length messages out i
                         (current_length + msg_length msg)
                         (alter (insert_front r) out h)
                  else Some h
              end
          end
      end
  end.

(** [truncated_messages = []] allocates a new list object; the function
    returns a reference to it. *)
Definition truncate_conversation_heap {float} (cfg : Config float)
    (messages : loc) (max_length : option Z) (h : gmap loc pyobj)
    : option (loc * gmap loc pyobj) :=
  let max_length := get max_length (MAX_MESSAGE_LENGTH cfg) in
  match h !! messages ≫= as_list with
  | None => None
  | Some items =>
      let out := fresh (dom h) in
      match truncate_steps max_length messages out (length items) 0
              (<[out := PyList []]> h) with
      | None => None
      | Some h' => Some (out, h')
      end
  end.

(** The dictionary a reference stands for. *)
Definition deref_dict (h : gmap loc pyobj) (r : loc) : option Message :=
  h !! r ≫= as_dict.

(** The list of dictionaries a list object stands for. *)
Definition deref_list (h : gmap loc pyobj) (l : loc) : option (list Message) :=
  match h !! l ≫= as_list with
  | None => None
  | Some items => mapM (M := option) (deref_dict h) items
  end.

(** ** summarizer.py: _format_conversation and the prompt *)

(** The body of [for msg in messages] in [_format_conversation]. *)
Fixpoint format_loop (messages : list Message)
    (formatted_messages : list string) : list string :=
  match messages with
  | [] => formatted_messages
  | msg :: messages' =>
      let author := get (author msg) "Unknown" in
      let content := PyStr.strip (get (content msg) "") in
      if PyStr.truthy content
      then format_loop messages'
             (formatted_messages ++ [author +:+ ": " +:+ content])
      else format_loop messages' formatted_messages
  end.

Definition _format_conversation (messages : list Message) : string :=
  PyStr.join PyStr.nl (format_loop messages []).

Definition _create_summarization_prompt (conversation_text : string) : string :=
  "
Please provide a concise summary of the following conversation. Focus on:
- The main topic or subject being discussed
- Key points and arguments made by participants
- Any conclusions or decisions reached
- The overall tone and nature of the discussion

Conversation:
" +:+ conversation_text +:+ "

Please provide a clear, well-structured summary in 2-3 sentences.
".

(** ** Effects: exceptions, the inference service and standard output *)

(** An exception of class [Exception], which is what [except Exception]
    catches, with the text it prints as. *)
Inductive exn := Exception (text : string).

Definition exn_text (e : exn) : string :=
  match e with Exception text => text end.

Inductive outcome (A : Type) :=
| Returned (a : A)
| Raised (e : exn).
Arguments Returned {A} _.
Arguments Raised {A} _.

Record chat_message := { role : string; chat_content : string }.

Section Effects.
Variable float : Type.

(** The arguments of [client.chat]. *)
Record chat_request := {
  req_model : string;
  req_messages : list chat_message;
  req_temperature : float;
  req_num_predict : Z
}.

(** What a run has done so far: the requests sent to the inference
    service, oldest first, and the lines printed. *)
Record world := {
  calls : list chat_request;
  stdout : list string
}.

(** A computation reads and extends the world and returns or raises. *)
Definition M (A : Type) : Type := world → outcome A * world.

Definition ret {A} (a : A) : M A := λ w, (Returned a, w).

Definition raise {A} (e : exn) : M A := λ w, (Raised e, w).

Definition bind {A B} (c : M A) (k : A → M B) : M B :=
  λ w, match c w with
       | (Returned a, w') => k a w'
       | (Raised e, w') => (Raised e, w')
       end.

(** [try: body / except Exception as e: handler] *)
Definition try_except {A} (body : M A) (handler : exn → M A) : M A :=
  λ w, match body w with
       | (Returned a, w') => (Returned a, w')
       | (Raised e, w') => handler e w'
       end.

Definition print (line : string) : M unit :=
  λ w, (Returned tt, {| calls := calls w; stdout := stdout w ++ [line] |}).

(** Lifting the answer of an external call into a computation. *)
Definition of_outcome {A} (o : outcome A) : M A := λ w, (o, w).

(** Sending a request: the request is logged, then the service answers. *)
Definition send (service : chat_request → outcome string)
    (req : chat_request) : M string :=
  λ w, (service req, {| calls := calls w ++ [req]; stdout := stdout w |}).
End Effects.

Arguments req_model {float} _.
Arguments req_messages {float} _.
Arguments req_temperature {float} _.
Arguments req_num_predict {float} _.
Arguments calls {float} _.
Arguments stdout {float} _.
Arguments ret {float A} _ _.
Arguments raise {float A} _ _.
Arguments bind {float A B} _ _ _.
Arguments try_except {float A} _ _ _.
Arguments print {float} _ _.
Arguments of_outcome {float A} _ _.
Arguments send {float} _ _ _.

Declare Scope py_scope.
Delimit Scope py_scope with py.
Notation "x <- c ;; k" := (bind c (λ x, k))
  (at level 100, c at next level, right associativity) : py_scope.
Notation "c ;; k" := (bind c (λ _, k))
  (at level 100, right associativity) : py_scope.

(** ** summarizer.py: the summarization client *)

Section Summarizer.
Variable float : Type.
Variable cfg : Config float.

(** [self.client.chat(...)] followed by [response['message']['content']]:
    the generated text, or the exception either step raises. *)
Variable client_chat : chat_request float → outcome string.

(** [loop.run_in_executor] may fail before the submitted call runs. *)
Variable executor_fault : option exn.

Definition system_instruction : string :=
  "You are a helpful assistant that summarizes conversations. Provide clear, concise summaries that capture the main points and key arguments.".

Definition _sync_ollama_call (prompt : string) : M float (option string) :=
  try_except
    (response <- send client_chat
         {| req_model := OLLAMA_MODEL cfg;
            req_messages :=
              [ {| role := "system"; chat_content := system_instruction |};
                {| role := "user"; chat_content := prompt |} ];
            req_temperature := TEMPERATURE cfg;
            req_num_predict := MAX_TOKENS cfg |} ;;
     ret (Some response))%py
    (λ e, print ("Error in Ollama call: " +:+ exn_text e) ;; ret None)%py.

Definition run_in_executor {A} (call : M float A) : M float A :=
  match executor_fault with
  | Some e => raise e
  | None => call
  end.

Definition _call_ollama (prompt : string) : M float (option string) :=
  try_except
    (response <- run_in_executor (_sync_ollama_call prompt) ;;
     ret response)%py
    (λ e, print ("Error calling Ollama: " +:+ exn_text e) ;; ret None)%py.

Definition summarize_conversation (messages : list Message)
    : M float (option string) :=
  match messages with
  | [] => ret (Some "No messages to summarize.")
  | _ :: _ =>
      try_except
        (let conversation_text := _format_conversation messages in
         let prompt := _create_summarization_prompt conversation_text in
         response <- _call_ollama prompt ;;
         match response with
         | Some r =>
             if PyStr.truthy r && PyStr.truthy (PyStr.strip r)
             then ret (Some (PyStr.strip r))
             else ret None
         | None => ret None
         end)%py
        (λ e, print ("Error during summarization: " +:+ exn_text e) ;;
              ret None)%py
  end.

(** [client.list] is the capability probe. *)
Variable client_list : outcome unit.

Definition test_connection : M float bool :=
  try_except
    (_ <- run_in_executor (of_outcome client_list) ;; ret true)%py
    (λ e, print ("Ollama connection test failed: " +:+ exn_text e) ;;
          ret false)%py.
End Summarizer.

(** The world before anything has happened. *)
Definition initial_world {float} : world float := {| calls := []; stdout := [] |}.

(** ** bot.py: the per-channel message cache *)

(** A message-arrived event of the chat platform. *)
Record DiscordMessage := {
  author_bot : bool;
  author_display_name : string;
  message_content : string;
  created_at : Z;
  channel_id : Z
}.

(** The dictionary both [cache_message] and [get_recent_messages] build. *)
Definition entry_of (message : DiscordMessage) : Message :=
  mk_message (author_display_name message) (message_content message)
    (created_at message).

Section Bot.
Variable float : Type.
Variable cfg : Config float.

Definition cache_message (message_cache : gmap Z (list Message))
    (message : DiscordMessage) : gmap Z (list Message) :=
  let channel_id := channel_id message in
  let cache1 :=
    match message_cache !! channel_id with
    | Some _ => message_cache
    | None => <[channel_id := []]> message_cache
    end in
  let cache2 := alter (λ l, l ++ [entry_of message]) channel_id cache1 in
  if MAX_MESSAGES_TO_SUMMARIZE cfg
       <? Z.of_nat (length (default [] (cache2 !! channel_id)))
  then alter (py_slice_from (- MAX_MESSAGES_TO_SUMMARIZE cfg)) channel_id cache2
  else cache2.

(** [on_message], as far as the cache is concerned: [process_commands]
    only reads the cache. *)
Definition on_message (message_cache : gmap Z (list Message))
    (message : DiscordMessage) : gmap Z (list Message) :=
  if author_bot message then message_cache
  else cache_message message_cache message.

(** The loop of [get_recent_messages] over what [channel.history] yields,
    most recent first. *)
Fixpoint recent_loop (history : list DiscordMessage)
    (messages : list Message) : list Message :=
  match history with
  | [] => messages
  | message :: history' =>
      if negb (author_bot message)
         && PyStr.truthy (PyStr.strip (message_content message))
      then recent_loop history' (messages ++ [entry_of message])
      else recent_loop history' messages
  end.

Definition get_recent_messages (channel_history : Z → list DiscordMessage)
    (limit : option Z) : list Message :=
  let limit := get limit (MAX_MESSAGES_TO_SUMMARIZE cfg) in
  reverse (recent_loop (channel_history limit) []).
End Bot.

(** The cached messages of a channel, oldest first; an unseen channel has
    none.  This is what [summarize_cached] reads. *)
Definition snapshot (message_cache : gmap Z (list Message)) (channel : Z)
    : list Message :=
  default [] (message_cache !! channel).

(** Handling a sequence of message events, in order of arrival. *)
Definition on_messages {float} (cfg : Config float)
    (message_cache : gmap Z (list Message)) (events : list DiscordMessage)
    : gmap Z (list Message) :=
  foldl (on_message float cfg) message_cache events.

(** ** Notions the properties are stated with *)

(** The total serialized length of a conversation: every message rendered
    as ["{author}: {content}\n"], lengths summed. *)
Definition serialized_length (messages : list Message) : Z :=
  foldr (λ msg total, msg_length msg + total) 0 messages.

(** The budget in force in [truncate_conversation]: the argument, or the
    configured default when the argument is [None]. *)
Definition budget {float} (cfg : Config float) (max_length : option Z) : Z :=
  get max_length (MAX_MESSAGE_LENGTH cfg).

(** A message whose trimmed content is not empty. *)
Definition qualifying (msg : Message) : bool :=
  PyStr.truthy (PyStr.strip (get (content msg) "")).

(** The line [_format_conversation] produces for a qualifying message. *)
Definition formatted_line (msg : Message) : string :=
  get (author msg) "Unknown" +:+ ": " +:+ PyStr.strip (get (content msg) "").

(** The author and the content of a message of the data model. *)
Definition author_of (msg : Message) : string := default "" (author msg).
Definition content_of (msg : Message) : string := default "" (content msg).

(** [formatConversation] in the spec's words, read literally: each message
    whose trimmed content is not empty is rendered as ["{author}: {content}"]
    with its content as stored, and the lines are joined by newlines. *)
Definition formatConversation_literal (messages : list Message) : string :=
  PyStr.join PyStr.nl
    (map (λ msg, author_of msg +:+ ": " +:+ content_of msg)
       (List.filter (λ msg, PyStr.truthy (PyStr.strip (content_of msg)))
          messages)).

(** [formatConversation] in the spec's words, with the content of each
    rendered line trimmed. *)
Definition formatConversation_trimmed (messages : list Message) : string :=
  PyStr.join PyStr.nl
    (map (λ msg, author_of msg +:+ ": " +:+ PyStr.strip (content_of msg))
       (List.filter (λ msg, PyStr.truthy (PyStr.strip (content_of msg)))
          messages)).

(** The length of [parts] written out one per line, every line ended by a
    newline. *)
Definition lines_length (parts : list string) : Z :=
  foldr (λ part total, PyStr.len part + 1 + total) 0 parts.

(** The request [summarize_conversation] sends for a conversation. *)
Definition summarization_request {float} (cfg : Config float)
    (messages : list Message) : chat_request float :=
  {| req_model := OLLAMA_MODEL cfg;
     req_messages :=
       [ {| role := "system"; chat_content := system_instruction |};
         {| role := "user";
            chat_content :=
              _create_summarization_prompt (_format_conversation messages) |} ];
     req_temperature := TEMPERATURE cfg;
     req_num_predict := MAX_TOKENS cfg |}.

(** What the summary should be, given how the inference call went: the
    trimmed text when the call returned a text that is not blank, and the
    failure marker [None] otherwise. *)
Definition expected_summary (executor_fault : option exn)
    (answer : outcome string) : option string :=
  match executor_fault, answer with
  | None, Returned text =>
      if PyStr.truthy (PyStr.strip text) then Some (PyStr.strip text) else None
  | _, _ => None
  end.

(** The size check at the end of [cache_message], on the list just
    appended to. *)
Definition keep_recent {float} (cfg : Config float) (l : list Message)
    : list Message :=
  if MAX_MESSAGES_TO_SUMMARIZE cfg <? Z.of_nat (length l)
  then py_slice_from (- MAX_MESSAGES_TO_SUMMARIZE cfg) l
  else l.

(** The entries of the events of a channel that are not from a bot, in
    order of arrival. *)
Definition recorded (channel : Z) (events : list DiscordMessage)
    : list Message :=
  map entry_of
    (List.filter (λ e, negb (author_bot e) && (channel_id e =? channel))
       events).

(** Sample events in channel 7, all from a user account: four ordinary
    messages, one with an empty content (a message that is only an
    attachment) and one with a blank content. *)
Definition sample_event (text : string) (time : Z) : DiscordMessage :=
  {| author_bot := false; author_display_name := "ann";
     message_content := text; created_at := time; channel_id := 7 |}.

Definition m1 : DiscordMessage := sample_event "m1" 1.
Definition m2 : DiscordMessage := sample_event "m2" 2.
Definition m3 : DiscordMessage := sample_event "m3" 3.
Definition m4 : DiscordMessage := sample_event "m4" 4.
Definition empty_event : DiscordMessage := sample_event "" 5.
Definition blank_event : DiscordMessage := sample_event "   " 6.

(** A heap with the list [[A: hello, B: hi]] at location 1. *)
Definition sample_heap : gmap loc pyobj :=
  <[1%positive := PyList [2%positive; 3%positive]]>
    (<[2%positive := PyDict (mk_message "A" "hello" 0)]>
       (<[3%positive := PyDict (mk_message "B" "hi" 1)]> ∅)).

(** The last [n] elements of a list. *)
Definition lastn {A} (n : nat) (l : list A) : list A :=
  drop (length l - n) l.

(** ** Further notions *)

(** The lines a call of [summarize_conversation] on a conversation that is
    not empty prints, given how the inference call went. *)
Definition expected_diagnostics (executor_fault : option exn)
    (answer : outcome string) : list string :=
  match executor_fault, answer with
  | Some e, _ => ["Error calling Ollama: " +:+ exn_text e]
  | None, Raised e => ["Error in Ollama call: " +:+ exn_text e]
  | None, Returned _ => []
  end.

(** The events [get_recent_messages] keeps: not from a bot, and with a
    content that is not blank. *)
Definition kept_by_history (message : DiscordMessage) : bool :=
  negb (author_bot message)
  && PyStr.truthy (PyStr.strip (message_content message)).

(** ** bot.py: the commands

    The texts the commands send carry pictograms and bullets, which are
    outside the range of [string].  The fixed texts are named by
    constructors, and an embed is kept as the values it is built from. *)

(** The fixed texts, each after its pictogram:
    - [Analyzing]: "Analyzing conversation... This may take a moment."
    - [NoMessagesFound]: "No messages found to summarize."
    - [SummaryFailed]: "Failed to generate summary. Please check if Ollama
      is running."
    - [SummarizeError]: "An error occurred while summarizing the
      conversation."
    - [NoCachedMessages]: "No cached messages found. Try using `!summarize`
      instead."
    - [SummarizingCached]: "Summarizing cached conversation..."
    - [CachedSummaryFailed]: "Failed to generate summary from cache."
    - [CachedSummarizeError]: "An error occurred while summarizing cached
      conversation." *)
Inductive notice :=
| Analyzing
| NoMessagesFound
| SummaryFailed
| SummarizeError
| NoCachedMessages
| SummarizingCached
| CachedSummaryFailed
| CachedSummarizeError.

(** Where a summary comes from.  [FromChannel name] is the embed of
    [summarize]: title "Conversation Summary", colour blue, field "Analysis
    Info" with the line "Channel: {name}".  [FromCache] is the embed of
    [summarize_cached]: title "Cached Conversation Summary", colour green,
    field "Cache Info" with the line "Source: Bot cache".  Both have the
    footer "Powered by Ollama Mistral AI". *)
Inductive embed_source :=
| FromChannel (channel_name : string)
| FromCache.

(** An embed: its description and timestamp, and the values of the lines
    "Messages analyzed", "Requested by" and "Model" of its field. *)
Record Embed := {
  embed_from : embed_source;
  embed_description : string;
  embed_timestamp : Z;
  messages_analyzed : Z;
  requested_by : string;
  embed_model : string
}.

(** What a command reads of its invocation context [ctx]. *)
Record Context := {
  ctx_channel_id : Z;
  ctx_channel_name : string;
  ctx_author_display_name : string;
  ctx_message_created_at : Z
}.

(** The calls a command makes to the chat platform:
    [await ctx.send(text)], [await loading_msg.edit(content=text)] and
    [await loading_msg.edit(content="", embed=embed)]. *)
Inductive discord_call :=
| CtxSend (text : notice)
| EditContent (text : notice)
| EditEmbed (embed : Embed).

Section CommandEffects.
Variable float : Type.

(** What a command has done so far: the world of the summarization client
    and the calls made to the chat platform, oldest first. *)
Record session := {
  inference : world float;
  outbox : list discord_call
}.

Definition Cmd (A : Type) : Type := session → outcome A * session.

Definition cmd_ret {A} (a : A) : Cmd A := λ s, (Returned a, s).

Definition cmd_bind {A B} (c : Cmd A) (k : A → Cmd B) : Cmd B :=
  λ s, match c s with
       | (Returned a, s') => k a s'
       | (Raised e, s') => (Raised e, s')
       end.

(** [try: body / except Exception as e: handler] *)
Definition cmd_try_except {A} (body : Cmd A) (handler : exn → Cmd A) : Cmd A :=
  λ s, match body s with
       | (Returned a, s') => (Returned a, s')
       | (Raised e, s') => handler e s'
       end.

(** Running a computation of the summarization client inside a command. *)
Definition cmd_lift {A} (c : M float A) : Cmd A :=
  λ s, match c (inference s) with
       | (o, w') => (o, {| inference := w'; outbox := outbox s |})
       end.

(** A call to the chat platform: the call is logged, then the platform
    accepts it or raises. *)
Definition cmd_call (discord : discord_call → outcome unit)
    (call : discord_call) : Cmd unit :=
  λ s, (discord call,
        {| inference := inference s; outbox := outbox s ++ [call] |}).
End CommandEffects.

Arguments inference {float} _.
Arguments outbox {float} _.
Arguments cmd_ret {float A} _ _.
Arguments cmd_bind {float A B} _ _ _.
Arguments cmd_try_except {float A} _ _ _.
Arguments cmd_lift {float A} _ _.
Arguments cmd_call {float} _ _ _.

Declare Scope cmd_scope.
Delimit Scope cmd_scope with cmd.
Notation "x <- c ;; k" := (cmd_bind c (λ x, k))
  (at level 100, c at next level, right associativity) : cmd_scope.
Notation "c ;; k" := (cmd_bind c (λ _, k))
  (at level 100, right associativity) : cmd_scope.

Module SummarizerCommands.
Section Commands.
Variable float : Type.
Variable cfg : Config float.
Variable client_chat : chat_request float → outcome string.
Variable executor_fault : option exn.

(** The chat platform, and [channel.history(limit=limit)] of the channel the
    command is invoked in: the messages, most recent first, or the exception
    the iteration raises. *)
Variable discord : discord_call → outcome unit.
Variable channel_history : Z → outcome (list DiscordMessage).

(** The embed either command builds for a summary of [messages]. *)
Definition summary_embed (source : embed_source) (ctx : Context)
    (messages : list Message) (summary : string) : Embed :=
  {| embed_from := source;
     embed_description := summary;
     embed_timestamp := ctx_message_created_at ctx;
     messages_analyzed := Z.of_nat (length messages);
     requested_by := ctx_author_display_name ctx;
     embed_model := OLLAMA_MODEL cfg |}.

(** The command reads the cache; it does not change it. *)
Definition summarize_cached (message_cache : gmap Z (list Message))
    (ctx : Context) : Cmd float unit :=
  cmd_try_except
    (let channel_id := ctx_channel_id ctx in
     match message_cache !! channel_id with
     | None | Some [] => cmd_call discord (CtxSend NoCachedMessages)
     | Some ((_ :: _) as messages) =>
         cmd_call discord (CtxSend SummarizingCached) ;;
         let messages := truncate_conversation cfg messages None in
         summary <- cmd_lift
                      (summarize_conversation float cfg client_chat
                         executor_fault messages) ;;
         match summary with
         | Some text =>
             if PyStr.truthy text
             then cmd_call discord
                    (EditEmbed (summary_embed FromCache ctx messages text))
             else cmd_call discord (EditContent CachedSummaryFailed)
         | None => cmd_call discord (EditContent CachedSummaryFailed)
         end
     end)%cmd
    (λ e, cmd_lift
            (print ("Error in summarize_cache command: " +:+ exn_text e)) ;;
          cmd_call discord (CtxSend CachedSummarizeError))%cmd.

(** The command [summarize]; the traceback its handler prints goes to
    standard error, which is not part of the world. *)
Definition summarize_conversation (ctx : Context) (limit : Z)
    : Cmd float unit :=
  cmd_try_except
    (cmd_call discord (CtxSend Analyzing) ;;
     history <- cmd_lift (of_outcome (channel_history limit)) ;;
     let messages :=
       get_recent_messages float cfg (λ _, history) (Some limit) in
     match messages with
     | [] => cmd_call discord (EditContent NoMessagesFound)
     | _ :: _ =>
         let messages := truncate_conversation cfg messages None in
         summary <- cmd_lift
                      (summarize_conversation float cfg client_chat
                         executor_fault messages) ;;
         match summary with
         | Some text =>
             if PyStr.truthy text
             then cmd_call discord
                    (EditEmbed
                       (summary_embed (FromChannel (ctx_channel_name ctx)) ctx
                          messages text))
             else cmd_call discord (EditContent SummaryFailed)
         | None => cmd_call discord (EditContent SummaryFailed)
         end
     end)%cmd
    (λ e, cmd_lift (print ("Error in summarize command: " +:+ exn_text e)) ;;
          cmd_call discord (CtxSend SummarizeError))%cmd.
End Commands.
End SummarizerCommands.

(** The call that ends a command that got as far as summarizing: the embed
    for a summary, the failure text otherwise. *)
Definition closing_call {float} (cfg : Config float) (source : embed_source)
    (failed : notice) (ctx : Context) (messages : list Message)
    (summary : option string) : discord_call :=
  match summary with
  | Some text =>
      EditEmbed (SummarizerCommands.summary_embed float cfg source ctx
                   messages text)
  | None => EditContent failed
  end.

(** A sample invocation in channel 7, a session in which nothing has
    happened, a chat platform that accepts every call, an inference service
    that answers with a padded text and a cache that holds m1 and m2. *)
Definition sample_ctx : Context :=
  {| ctx_channel_id := 7; ctx_channel_name := "general";
     ctx_author_display_name := "ann"; ctx_message_created_at := 9 |}.

Definition initial_session : session dyadic :=
  {| inference := initial_world; outbox := [] |}.

Definition accepting : discord_call → outcome unit := λ _, Returned tt.

Definition sample_service : chat_request dyadic → outcome string :=
  λ _, Returned "  A greets B.  ".

Definition sample_cache : gmap Z (list Message) :=
  on_messages default_config ∅ [m1; m2].

(** The default configuration with another character budget. *)
Definition config_with_budget (n : Z) : Config dyadic :=
  {| DISCORD_TOKEN := DISCORD_TOKEN default_config;
     OLLAMA_HOST := OLLAMA_HOST default_config;
     OLLAMA_MODEL := OLLAMA_MODEL default_config;
     BOT_PREFIX := BOT_PREFIX default_config;
     MAX_MESSAGES_TO_SUMMARIZE := MAX_MESSAGES_TO_SUMMARIZE default_config;
     MAX_MESSAGE_LENGTH := n;
     MAX_TOKENS := MAX_TOKENS default_config;
     TEMPERATURE := TEMPERATURE default_config |}.

(** * Properties *)

(** ** Strings *)

Lemma string_length_app (s1 s2 : string) :
  String.length (s1 +:+ s2) = (String.length s1 + String.length s2)%nat.
Proof. induction s1 as [|c s1 IH]; simpl; [done | by rewrite IH]. Qed.

Lemma len_app (s1 s2 : string) : PyStr.len (s1 +:+ s2) = PyStr.len s1 + PyStr.len s2.
Proof. unfold PyStr.len. rewrite string_length_app. lia. Qed.

Lemma len_nonneg (s : string) : 0 ≤ PyStr.len s.
Proof. unfold PyStr.len. lia. Qed.

Lemma len_nl : PyStr.len PyStr.nl = 1.
Proof. reflexivity. Qed.

Lemma lstrip_length (s : string) :
  (String.length (PyStr.lstrip s) ≤ String.length s)%nat.
Proof.
  induction s as [|c s IH]; simpl; [done|].
  destruct (PyStr.isspace c); simpl; lia.
Qed.

Lemma rstrip_length (s : string) :
  (String.length (PyStr.rstrip s) ≤ String.length s)%nat.
Proof.
  induction s as [|c s IH]; simpl; [done|].
  destruct (PyStr.rstrip s) as [|c' r]; simpl in *.
  - destruct (PyStr.isspace c); simpl; lia.
  - lia.
Qed.

Lemma strip_len (s : string) : PyStr.len (PyStr.strip s) ≤ PyStr.len s.
Proof.
  unfold PyStr.len, PyStr.strip.
  pose proof (rstrip_length (PyStr.lstrip s)). pose proof (lstrip_length s). lia.
Qed.

Lemma truthy_true (s : string) : PyStr.truthy s = true ↔ s ≠ "".
Proof. destruct s; simpl; split; congruence. Qed.

Lemma truthy_false (s : string) : PyStr.truthy s = false ↔ s = "".
Proof. destruct s; simpl; split; congruence. Qed.

(** ** Truncation *)

Lemma msg_length_eq (msg : Message) :
  msg_length msg
  = PyStr.len (get (author msg) "") + PyStr.len (get (content msg) "") + 3.
Proof.
  unfold msg_length, msg_content. rewrite !len_app, len_nl.
  change (PyStr.len ": ") with 2. lia.
Qed.

Lemma msg_length_pos (msg : Message) : 3 ≤ msg_length msg.
Proof.
  rewrite msg_length_eq.
  pose proof (len_nonneg (get (author msg) "")).
  pose proof (len_nonneg (get (content msg) "")). lia.
Qed.

Lemma serialized_length_nonneg (messages : list Message) :
  0 ≤ serialized_length messages.
Proof.
  induction messages as [|m l IH]; simpl; [lia|].
  pose proof (msg_length_pos m). lia.
Qed.

Lemma serialized_length_app (l1 l2 : list Message) :
  serialized_length (l1 ++ l2) = serialized_length l1 + serialized_length l2.
Proof. induction l1 as [|m l1 IH]; simpl; lia. Qed.

Lemma serialized_length_reverse (l : list Message) :
  serialized_length (reverse l) = serialized_length l.
Proof.
  induction l as [|m l IH]; [done|].
  rewrite reverse_cons, serialized_length_app. simpl. lia.
Qed.

(** What the loop computes: it takes a prefix [taken] of what is pending and
    puts it, reversed, in front of the accumulator; whatever it takes fits,
    and it stops at the first message that does not. *)
Lemma truncate_loop_spec (C : Z) (pending acc : list Message) (cur : Z) :
  ∃ taken rest,
    pending = taken ++ rest
    ∧ truncate_loop C pending acc cur = reverse taken ++ acc
    ∧ (taken ≠ [] → cur + serialized_length taken ≤ C)
    ∧ (∀ m rest', rest = m :: rest' →
         C < cur + serialized_length taken + msg_length m).
Proof.
  revert acc cur. induction pending as [|m p IH]; intros acc cur; simpl.
  - exists [], []. repeat split; [done | discriminate].
  - destruct (Z.leb_spec (cur + msg_length m) C) as [Hfit|Hover].
    + destruct (IH (m :: acc) (cur + msg_length m))
        as (taken & rest & -> & Hres & Hsum & Hstop).
      exists (m :: taken), rest. repeat split.
      * rewrite Hres, reverse_cons, <- app_assoc. done.
      * intros _. simpl. destruct taken as [|m' taken'].
        -- simpl. lia.
        -- specialize (Hsum ltac:(discriminate)). simpl in *. lia.
      * intros m' rest' Heq. specialize (Hstop m' rest' Heq). simpl. lia.
    + exists [], (m :: p). repeat split; [done|].
      intros m' rest' [= <- <-]. simpl. lia.
Qed.

(** A conversation that fits as a whole is kept whole. *)
Lemma truncate_loop_all (C : Z) (pending acc : list Message) (cur : Z) :
  cur + serialized_length pending ≤ C →
  truncate_loop C pending acc cur = reverse pending ++ acc.
Proof.
  revert acc cur. induction pending as [|m p IH]; intros acc cur Hfit; simpl.
  - done.
  - simpl in Hfit. pose proof (serialized_length_nonneg p).
    destruct (Z.leb_spec (cur + msg_length m) C) as [_|Hover]; [|lia].
    rewrite IH by lia. rewrite reverse_cons, <- app_assoc. done.
Qed.

Section Truncation.
Context {float : Type} (cfg : Config float).

Lemma truncate_conversation_spec (messages : list Message)
    (max_length : option Z) :
  ∃ dropped,
    messages = dropped ++ truncate_conversation cfg messages max_length
    ∧ (truncate_conversation cfg messages max_length ≠ [] →
       serialized_length (truncate_conversation cfg messages max_length)
       ≤ budget cfg max_length)
    ∧ (∀ m dropped', dropped = dropped' ++ [m] →
       budget cfg max_length
       < serialized_length (truncate_conversation cfg messages max_length)
         + msg_length m).
Proof.
  unfold truncate_conversation, budget.
  destruct (truncate_loop_spec (get max_length (MAX_MESSAGE_LENGTH cfg))
              (reverse messages) [] 0)
    as (taken & rest & Hsplit & -> & Hsum & Hstop).
  rewrite app_nil_r. exists (reverse rest). repeat split.
  - rewrite <- reverse_app, <- Hsplit, reverse_involutive. done.
  - intros Hne. rewrite serialized_length_reverse.
    assert (taken ≠ []) as Ht by (intros ->; by apply Hne).
    specialize (Hsum Ht). lia.
  - intros m dropped' Hd. rewrite serialized_length_reverse.
    assert (rest = m :: reverse dropped') as Hr.
    { rewrite <- (reverse_involutive rest), Hd, reverse_app. done. }
    specialize (Hstop _ _ Hr). lia.
Qed.

Lemma truncate_conversation_nil (max_length : option Z) :
  truncate_conversation cfg [] max_length = [].
Proof. reflexivity. Qed.

(** The result is empty exactly when there is nothing to take or the most
    recent message does not fit. *)
Lemma truncate_conversation_empty (messages : list Message)
    (max_length : option Z) :
  truncate_conversation cfg messages max_length = []
  ↔ messages = []
    ∨ ∃ m, last messages = Some m ∧ budget cfg max_length < msg_length m.
Proof.
  unfold truncate_conversation, budget.
  rewrite <- head_reverse.
  destruct (reverse messages) as [|m p] eqn:Hrev; simpl.
  - split; [intros _; left | done].
    apply (f_equal reverse) in Hrev. by rewrite reverse_involutive in Hrev.
  - assert (messages ≠ []) as Hne by (intros ->; discriminate).
    destruct (Z.leb_spec (0 + msg_length m)
                (get max_length (MAX_MESSAGE_LENGTH cfg))) as [Hfit|Hover].
    + destruct (truncate_loop_spec (get max_length (MAX_MESSAGE_LENGTH cfg))
                  p [m] (0 + msg_length m))
        as (taken & rest & _ & -> & _).
      split.
      * intros Hnil. apply app_eq_nil in Hnil as [_ ?]. discriminate.
      * intros [?|(m' & [= <-] & ?)]; [done | lia].
    + split; [|done]. intros _. right. exists m. split; [done | lia].
Qed.

(** C1 (amended). For every list of messages and every integer budget, the
    result of truncate_conversation is a contiguous suffix of the input, in
    the input's order, and its total serialized length is at most
    max(0, budget): at most the budget when the budget is not negative, and
    zero (the empty result) when it is. *)
Theorem truncate_conversation_suffix_within_budget
    (messages : list Message) (max_length : option Z) :
  truncate_conversation cfg messages max_length `suffix_of` messages
  ∧ serialized_length (truncate_conversation cfg messages max_length)
    ≤ Z.max 0 (budget cfg max_length).
Proof.
  destruct (truncate_conversation_spec messages max_length)
    as (dropped & Hsplit & Hsum & _).
  split; [by exists dropped|].
  destruct (truncate_conversation cfg messages max_length) as [|m r].
  - simpl. lia.
  - specialize (Hsum ltac:(discriminate)). lia.
Qed.

(** C4. The result of truncate_conversation is empty if and only if the
    input is empty or the serialized length of the most recent message
    alone exceeds the budget; in particular the empty input gives the empty
    result, and a budget of zero or less gives the empty result. *)
Theorem truncate_conversation_empty_iff
    (messages : list Message) (max_length : option Z) :
  (truncate_conversation cfg messages max_length = []
   ↔ messages = []
     ∨ ∃ m, last messages = Some m ∧ budget cfg max_length < msg_length m)
  ∧ truncate_conversation cfg [] max_length = []
  ∧ (budget cfg max_length ≤ 0 →
     truncate_conversation cfg messages max_length = []).
Proof.
  split; [apply truncate_conversation_empty|].
  split; [apply truncate_conversation_nil|].
  intros Hle. apply truncate_conversation_empty.
  destruct (last messages) as [m|] eqn:Hlast.
  - right. exists m. split; [done|]. pose proof (msg_length_pos m). lia.
  - left. by apply last_None.
Qed.

(** C6. truncate_conversation is idempotent: truncating its own result
    again with the same budget changes nothing. *)
Theorem truncate_conversation_idempotent
    (messages : list Message) (max_length : option Z) :
  truncate_conversation cfg
    (truncate_conversation cfg messages max_length) max_length
  = truncate_conversation cfg messages max_length.
Proof.
  destruct (truncate_conversation_spec messages max_length)
    as (_ & _ & Hsum & _).
  destruct (truncate_conversation cfg messages max_length) as [|m r] eqn:Hr.
  - reflexivity.
  - specialize (Hsum ltac:(discriminate)).
    unfold truncate_conversation at 1. fold (budget cfg max_length).
    rewrite truncate_loop_all.
    + by rewrite reverse_involutive, app_nil_r.
    + rewrite serialized_length_reverse. lia.
Qed.
End Truncation.

(** ** Formatting *)

Lemma format_loop_lines (messages : list Message) (acc : list string) :
  format_loop messages acc
  = acc ++ map formatted_line (List.filter qualifying messages).
Proof.
  revert acc. induction messages as [|m l IH]; intros acc; simpl.
  - by rewrite app_nil_r.
  - unfold qualifying at 1. fold (formatted_line m).
    destruct (PyStr.truthy (PyStr.strip (get (content m) ""))); simpl.
    + rewrite IH, <- app_assoc. done.
    + apply IH.
Qed.

Lemma format_conversation_lines (messages : list Message) :
  _format_conversation messages
  = PyStr.join PyStr.nl (map formatted_line (List.filter qualifying messages)).
Proof. unfold _format_conversation. by rewrite format_loop_lines. Qed.

Lemma join_nl_len (parts : list string) :
  parts ≠ [] → PyStr.len (PyStr.join PyStr.nl parts) = lines_length parts - 1.
Proof.
  induction parts as [|p ps IH]; intros Hne; [done|].
  destruct ps as [|q ps].
  - simpl. lia.
  - change (PyStr.join PyStr.nl (p :: q :: ps))
      with (p +:+ PyStr.nl +:+ PyStr.join PyStr.nl (q :: ps)).
    rewrite !len_app, len_nl, IH by discriminate.
    change (lines_length (p :: q :: ps))
      with (PyStr.len p + 1 + lines_length (q :: ps)). lia.
Qed.

Lemma formatted_line_len (msg : Message) :
  is_Some (author msg) → PyStr.len (formatted_line msg) + 1 ≤ msg_length msg.
Proof.
  intros [a Ha]. unfold formatted_line. rewrite msg_length_eq, !len_app, Ha.
  change (PyStr.len ": ") with 2. simpl.
  pose proof (strip_len (get (content msg) "")). lia.
Qed.

Lemma formatted_lines_length (messages : list Message) :
  Forall (λ msg, is_Some (author msg)) messages →
  lines_length (map formatted_line (List.filter qualifying messages))
  ≤ serialized_length messages.
Proof.
  induction 1 as [|m l Hm _ IH]; simpl; [lia|].
  pose proof (msg_length_pos m). pose proof (formatted_line_len m Hm).
  destruct (qualifying m); simpl; lia.
Qed.

(** The formatted text is never longer than the serialized conversation. *)
Lemma format_conversation_len (messages : list Message) :
  Forall (λ msg, is_Some (author msg)) messages →
  PyStr.len (_format_conversation messages) ≤ serialized_length messages.
Proof.
  intros Hauth. rewrite format_conversation_lines.
  pose proof (formatted_lines_length messages Hauth) as Hlines.
  destruct (map formatted_line (List.filter qualifying messages)) as [|p ps] eqn:E.
  - simpl. apply serialized_length_nonneg.
  - rewrite join_nl_len by discriminate. lia.
Qed.

Lemma formatted_line_well_formed (msg : Message) :
  well_formed msg →
  formatted_line msg = author_of msg +:+ ": " +:+ PyStr.strip (content_of msg).
Proof. intros [[a Ha] [c Hc]]. unfold formatted_line, author_of, content_of. by rewrite Ha, Hc. Qed.

(** C8 (amended). For every list of messages with an author and a content,
    _format_conversation renders each message whose trimmed content is not
    empty as the author, a colon and a space, and the trimmed content, joins
    these lines with newlines in input order, and skips every message whose
    trimmed content is empty; on the messages A: hello and B: hi it yields
    the two lines A: hello and B: hi. *)
Theorem format_conversation_trimmed_lines (messages : list Message) :
  Forall well_formed messages →
  _format_conversation messages = formatConversation_trimmed messages
  ∧ _format_conversation [mk_message "A" "hello" 0; mk_message "B" "hi" 1]
    = "A: hello" +:+ PyStr.nl +:+ "B: hi".
Proof.
  intros Hwf. split; [|reflexivity].
  rewrite format_conversation_lines. unfold formatConversation_trimmed.
  f_equal. induction Hwf as [|m l Hm _ IH]; [done|].
  cbn [List.filter]. unfold qualifying at 1, get. fold (content_of m).
  destruct (PyStr.truthy (PyStr.strip (content_of m))); [|exact IH].
  cbn [map]. by rewrite IH, formatted_line_well_formed.
Qed.

Section FormatTruncated.
Context {float : Type} (cfg : Config float).

(** C9. For every list of messages that carry an author and every budget
    that is not negative, the text _format_conversation builds from the
    result of truncate_conversation is no longer than the budget. *)
Theorem format_conversation_truncated_within_budget
    (messages : list Message) (max_length : option Z) :
  Forall (λ msg, is_Some (author msg)) messages →
  0 ≤ budget cfg max_length →
  PyStr.len
    (_format_conversation (truncate_conversation cfg messages max_length))
  ≤ budget cfg max_length.
Proof.
  intros Hauth Hbudget.
  destruct (truncate_conversation_spec cfg messages max_length)
    as (dropped & Hsplit & Hsum & _).
  rewrite Hsplit in Hauth. apply Forall_app in Hauth as [_ Hauth].
  pose proof (format_conversation_len _ Hauth) as Hlen.
  destruct (truncate_conversation cfg messages max_length) as [|m r].
  - exact Hbudget.
  - specialize (Hsum ltac:(discriminate)). lia.
Qed.
End FormatTruncated.

(** ** The summarization client *)

Lemma truthy_and_strip (r : string) :
  PyStr.truthy r && PyStr.truthy (PyStr.strip r) = PyStr.truthy (PyStr.strip r).
Proof. by destruct r. Qed.

Section SummarizerProperties.
Context {float : Type} (cfg : Config float).
Variable client_chat : chat_request float → outcome string.
Variable executor_fault : option exn.

(** C7. On the empty list of messages summarize_conversation returns the
    fixed notice at once: the result is a success, never the failure
    marker, and the world is unchanged, so no request is sent to the
    inference service and nothing is printed. *)
Theorem summarize_conversation_empty (w : world float) :
  summarize_conversation float cfg client_chat executor_fault [] w
  = (Returned (Some "No messages to summarize."), w)
  ∧ calls (summarize_conversation float cfg client_chat executor_fault [] w).2
    = calls w.
Proof. split; reflexivity. Qed.

(** C5. On a list of messages that is not empty, summarize_conversation
    never raises: it returns, and what it returns is the trimmed response
    when the inference call returned a text that is not blank after
    trimming, and the failure marker None when the call raised or the
    response was empty or blank; the empty string is never returned. *)
Theorem summarize_conversation_never_raises
    (messages : list Message) (w : world float) :
  messages ≠ [] →
  ∃ result w',
    summarize_conversation float cfg client_chat executor_fault messages w
    = (Returned result, w')
    ∧ result
      = expected_summary executor_fault
          (client_chat (summarization_request cfg messages))
    ∧ result ≠ Some "".
Proof.
  intros Hne. destruct messages as [|m l]; [done|].
  unfold summarize_conversation, _call_ollama, run_in_executor,
    _sync_ollama_call, expected_summary.
  fold (summarization_request cfg (m :: l)).
  unfold try_except, bind, send, ret, raise, print.
  destruct executor_fault as [e|].
  - eexists _, _. split; [reflexivity|]. split; [reflexivity | discriminate].
  - destruct (client_chat (summarization_request cfg (m :: l))) as [text|e].
    + rewrite truthy_and_strip.
      destruct (PyStr.truthy (PyStr.strip text)) eqn:Htext.
      * eexists _, _. split; [reflexivity|]. split; [reflexivity|].
        intros [= Hs]. rewrite Hs in Htext. discriminate.
      * eexists _, _. split; [reflexivity|]. split; [reflexivity | discriminate].
    + eexists _, _. split; [reflexivity|]. split; [reflexivity | discriminate].
Qed.
End SummarizerProperties.

(** ** Truncation on the heap: what is read, allocated and written *)

Lemma deref_dict_Some (h : gmap loc pyobj) (r : loc) (m : Message) :
  deref_dict h r = Some m ↔ h !! r = Some (PyDict m).
Proof.
  unfold deref_dict. destruct (h !! r) as [[items|d]|]; simpl;
    split; intros; simplify_eq; done.
Qed.

Lemma deref_dict_insert_list (h : gmap loc pyobj) (out r : loc)
    (items : list loc) (m : Message) :
  deref_dict h r = Some m → h !! out = None →
  deref_dict (<[out := PyList items]> h) r = Some m.
Proof.
  rewrite !deref_dict_Some. intros Hr Hout.
  rewrite lookup_insert_ne; [done | congruence].
Qed.

(** The loop, started with the fresh list holding [acc], only ever writes
    that list, and fills it as the loop on values does. *)
Lemma truncate_steps_spec (C : Z) (h0 : gmap loc pyobj) (messages out : loc)
    (items : list loc) (msgs : list Message) :
  h0 !! messages = Some (PyList items) →
  h0 !! out = None →
  Forall2 (λ r m, deref_dict h0 r = Some m) items msgs →
  ∀ (idx : nat) (acc : list loc) (accm : list Message) (cur : Z),
    (idx ≤ length items)%nat →
    Forall2 (λ r m, deref_dict h0 r = Some m) acc accm →
    ∃ acc',
      truncate_steps C messages out idx cur (<[out := PyList acc]> h0)
      = Some (<[out := PyList acc']> h0)
      ∧ Forall2 (λ r m, deref_dict h0 r = Some m) acc'
          (truncate_loop C (reverse (take idx msgs)) accm cur).
Proof.
  intros Hmsgs Hout Hitems.
  assert (messages ≠ out) as Hne by congruence.
  induction idx as [|i IH]; intros acc accm cur Hidx Hacc.
  - exists acc. by rewrite take_0.
  - cbn [truncate_steps].
    rewrite lookup_insert_ne, Hmsgs by done. cbn [mbind option_bind as_list].
    destruct (lookup_lt_is_Some_2 items i ltac:(lia)) as [r Hr]. rewrite Hr.
    destruct (Forall2_lookup_l _ _ _ _ _ Hitems Hr) as (m & Hm & Hrm).
    pose proof Hrm as Hrm'. apply deref_dict_Some in Hrm'.
    rewrite lookup_insert_ne, Hrm' by congruence. cbn [mbind option_bind as_dict].
    rewrite (take_S_r _ _ _ Hm), reverse_snoc. cbn [truncate_loop].
    destruct (cur + msg_length m <=? C).
    + rewrite alter_insert_eq. cbn [insert_front].
      apply IH; [lia | by constructor].
    + by exists acc.
Qed.

Section HeapTruncation.
Context {float : Type} (cfg : Config float).

(** C10. truncate_conversation does not mutate its input. Run on a heap in
    which the argument refers to a list of messages, it returns a list
    object that did not exist before the call, every object that existed
    before the call (the input list and every message dictionary among
    them) is the same after it, so the input still reads as the same
    messages, and the new list reads as the truncated conversation. *)
Theorem truncate_conversation_heap_frame (h : gmap loc pyobj)
    (messages : loc) (msgs : list Message) (max_length : option Z) :
  deref_list h messages = Some msgs →
  ∃ out h',
    truncate_conversation_heap cfg messages max_length h = Some (out, h')
    ∧ (out ∉ dom h)
    ∧ (∀ l, l ∈ dom h → h' !! l = h !! l)
    ∧ deref_list h' messages = Some msgs
    ∧ deref_list h' out
      = Some (truncate_conversation cfg msgs max_length).
Proof.
  unfold deref_list. intros Hderef.
  destruct (h !! messages ≫= as_list) as [items|] eqn:Hlist; [|done].
  assert (h !! messages = Some (PyList items)) as Hmsgs.
  { destruct (h !! messages) as [[items'|d]|]; simplify_eq/=; done. }
  apply mapM_Some in Hderef.
  set (out := fresh (dom h)).
  assert (h !! out = None) as Hout by apply not_elem_of_dom, is_fresh.
  destruct (truncate_steps_spec (budget cfg max_length) h messages out
              items msgs Hmsgs Hout Hderef (length items) [] [] 0
              ltac:(lia) ltac:(constructor)) as (kept & Hrun & Hkept).
  assert (length items = length msgs) as Hlen by (by eapply Forall2_length).
  rewrite Hlen, firstn_all in Hkept.
  exists out, (<[out := PyList kept]> h).
  unfold truncate_conversation_heap. rewrite Hlist.
  fold out. fold (budget cfg max_length). rewrite Hrun.
  split; [done|]. split; [by apply not_elem_of_dom|].
  split; [|split].
  - intros l Hl. apply elem_of_dom in Hl as [o Ho].
    rewrite lookup_insert_ne; [done | congruence].
  - rewrite lookup_insert_ne, Hlist by congruence.
    apply mapM_Some. eapply Forall2_impl; [exact Hderef|].
    intros r m Hr. by apply deref_dict_insert_list.
  - rewrite lookup_insert_eq. cbn [mbind option_bind as_list].
    apply mapM_Some. eapply Forall2_impl; [exact Hkept|].
    intros r m Hr. by apply deref_dict_insert_list.
Qed.
End HeapTruncation.

(** ** The message cache *)

Lemma length_lastn {A} (n : nat) (l : list A) : (length (lastn n l) ≤ n)%nat.
Proof. unfold lastn. rewrite length_drop. lia. Qed.

Lemma lastn_ge {A} (n : nat) (l : list A) : (length l ≤ n)%nat → lastn n l = l.
Proof. intros Hle. unfold lastn. by replace (length l - n)%nat with 0%nat by lia. Qed.

Lemma lastn_snoc {A} (n : nat) (l : list A) (x : A) :
  (1 ≤ n)%nat → lastn n (lastn n l ++ [x]) = lastn n (l ++ [x]).
Proof.
  intros Hn. destruct (decide (length l ≤ n)%nat) as [Hle|Hgt].
  - by rewrite (lastn_ge n l).
  - unfold lastn. rewrite !length_app, length_drop. simpl.
    rewrite !drop_app_le by (rewrite ?length_drop; lia).
    rewrite drop_drop. do 2 f_equal. lia.
Qed.

Lemma py_slice_from_neg {A} (n : Z) (l : list A) :
  1 ≤ n → py_slice_from (- n) l = lastn (Z.to_nat n) l.
Proof.
  intros Hn. unfold py_slice_from, lastn.
  destruct (Z.ltb_spec (- n) 0); [|lia]. f_equal. lia.
Qed.

(** Slicing from [-0] is slicing from [0]: the whole list. *)
Lemma py_slice_from_zero {A} (l : list A) : py_slice_from (- 0) l = l.
Proof.
  unfold py_slice_from. change (- 0) with 0.
  rewrite Z.ltb_irrefl, Z.min_l by lia. reflexivity.
Qed.

Section CacheProperties.
Context {float : Type} (cfg : Config float).

Lemma keep_recent_lastn (l : list Message) :
  1 ≤ MAX_MESSAGES_TO_SUMMARIZE cfg →
  keep_recent cfg l = lastn (Z.to_nat (MAX_MESSAGES_TO_SUMMARIZE cfg)) l.
Proof.
  intros Hn. unfold keep_recent.
  destruct (Z.ltb_spec (MAX_MESSAGES_TO_SUMMARIZE cfg) (Z.of_nat (length l))).
  - by apply py_slice_from_neg.
  - rewrite lastn_ge; [done | lia].
Qed.

(** What [cache_message] leaves in each channel. *)
Lemma cache_message_lookup (message_cache : gmap Z (list Message))
    (message : DiscordMessage) (channel : Z) :
  cache_message float cfg message_cache message !! channel
  = if decide (channel = channel_id message)
    then Some (keep_recent cfg
                 (snapshot message_cache channel ++ [entry_of message]))
    else message_cache !! channel.
Proof.
  unfold cache_message, snapshot, keep_recent.
  set (ch := channel_id message).
  set (cache1 := match message_cache !! ch with
                 | Some _ => message_cache
                 | None => <[ch := []]> message_cache
                 end).
  assert (cache1 !! ch = Some (default [] (message_cache !! ch))) as Hch.
  { subst cache1. destruct (message_cache !! ch) eqn:E; simpl;
      [done | by rewrite lookup_insert_eq]. }
  assert (∀ c, c ≠ ch → cache1 !! c = message_cache !! c) as Hother.
  { intros c Hc. subst cache1. destruct (message_cache !! ch);
      [done | by rewrite lookup_insert_ne]. }
  rewrite lookup_alter_eq, Hch. simpl.
  destruct (decide (channel = ch)) as [->|Hne].
  - destruct (_ <? _); [|by rewrite lookup_alter_eq, Hch].
    by rewrite !lookup_alter_eq, Hch.
  - destruct (_ <? _); rewrite ?lookup_alter_ne by done; by apply Hother.
Qed.

Lemma snapshot_cache_message (message_cache : gmap Z (list Message))
    (message : DiscordMessage) (channel : Z) :
  snapshot (cache_message float cfg message_cache message) channel
  = if decide (channel = channel_id message)
    then keep_recent cfg (snapshot message_cache channel ++ [entry_of message])
    else snapshot message_cache channel.
Proof.
  unfold snapshot at 1. rewrite cache_message_lookup. by case_decide.
Qed.

(** A message of a bot account never reaches the cache. *)
Lemma on_message_bot (message_cache : gmap Z (list Message))
    (message : DiscordMessage) :
  author_bot message = true →
  on_message float cfg message_cache message = message_cache.
Proof. intros Hbot. unfold on_message. by rewrite Hbot. Qed.

Lemma recorded_snoc (channel : Z) (events : list DiscordMessage)
    (e : DiscordMessage) :
  recorded channel (events ++ [e])
  = recorded channel events
    ++ (if negb (author_bot e) && (channel_id e =? channel)
        then [entry_of e] else []).
Proof.
  unfold recorded. rewrite List.filter_app, map_app. simpl.
  by destruct (negb (author_bot e) && (channel_id e =? channel)).
Qed.

(** With a bound of at least one, a channel's cache holds the most recent
    entries recorded for it, at most the bound, in order of arrival. *)
Lemma snapshot_on_messages (events : list DiscordMessage) (channel : Z) :
  1 ≤ MAX_MESSAGES_TO_SUMMARIZE cfg →
  snapshot (on_messages cfg ∅ events) channel
  = lastn (Z.to_nat (MAX_MESSAGES_TO_SUMMARIZE cfg)) (recorded channel events).
Proof.
  intros Hn. induction events as [|e events IH] using rev_ind.
  - reflexivity.
  - unfold on_messages in *. rewrite foldl_snoc, recorded_snoc.
    unfold on_message at 1. destruct (author_bot e); simpl.
    { by rewrite app_nil_r. }
    rewrite snapshot_cache_message.
    destruct (decide (channel = channel_id e)) as [->|Hne].
    + rewrite Z.eqb_refl, IH, keep_recent_lastn by done.
      apply lastn_snoc. lia.
    + destruct (Z.eqb_spec (channel_id e) channel); [done|].
      by rewrite app_nil_r.
Qed.

Lemma snapshot_on_messages_length (events : list DiscordMessage)
    (channel : Z) :
  1 ≤ MAX_MESSAGES_TO_SUMMARIZE cfg →
  Z.of_nat (length (snapshot (on_messages cfg ∅ events) channel))
  ≤ MAX_MESSAGES_TO_SUMMARIZE cfg.
Proof.
  intros Hn. rewrite snapshot_on_messages by done.
  pose proof (length_lastn (Z.to_nat (MAX_MESSAGES_TO_SUMMARIZE cfg))
                (recorded channel events)). lia.
Qed.

(** A message of a user account is recorded whatever its content. *)
Lemma on_message_records (message_cache : gmap Z (list Message))
    (message : DiscordMessage) :
  author_bot message = false →
  1 ≤ MAX_MESSAGES_TO_SUMMARIZE cfg →
  entry_of message
  ∈ snapshot (on_message float cfg message_cache message) (channel_id message).
Proof.
  intros Hbot Hn. unfold on_message. rewrite Hbot.
  rewrite snapshot_cache_message, decide_True by done.
  rewrite keep_recent_lastn by done. unfold lastn.
  rewrite length_app. simpl. rewrite drop_app_le by lia.
  apply elem_of_app. right. by apply list_elem_of_singleton.
Qed.

(** With a bound of zero the size check never shortens the list. *)
Lemma keep_recent_zero (l : list Message) :
  MAX_MESSAGES_TO_SUMMARIZE cfg = 0 → keep_recent cfg l = l.
Proof.
  intros Hz. unfold keep_recent. rewrite Hz.
  destruct (_ <? _); [apply py_slice_from_zero | done].
Qed.

(** With a bound of zero every recorded entry stays in the cache. *)
Lemma snapshot_on_messages_zero (events : list DiscordMessage) (channel : Z) :
  MAX_MESSAGES_TO_SUMMARIZE cfg = 0 →
  snapshot (on_messages cfg ∅ events) channel = recorded channel events.
Proof.
  intros Hz. induction events as [|e events IH] using rev_ind.
  - reflexivity.
  - unfold on_messages in *. rewrite foldl_snoc, recorded_snoc.
    unfold on_message at 1. destruct (author_bot e); simpl.
    { by rewrite app_nil_r. }
    rewrite snapshot_cache_message.
    destruct (decide (channel = channel_id e)) as [->|Hne].
    + by rewrite Z.eqb_refl, IH, keep_recent_zero.
    + destruct (Z.eqb_spec (channel_id e) channel); [done|].
      by rewrite app_nil_r.
Qed.
End CacheProperties.

(** With a bound of three and the records m1, m2, m3, m4 the channel's
    snapshot is m2, m3, m4 in order of arrival. *)
Example snapshot_bound_three :
  snapshot (on_messages (config_with_cache_bound 3) ∅ [m1; m2; m3; m4]) 7
  = [entry_of m2; entry_of m3; entry_of m4].
Proof. vm_compute. reflexivity. Qed.

(** C2. With the bound set to zero the cache is not bounded by it: the size
    check slices from index -0, which is the whole list, so after the records
    m1 and m2 the channel's snapshot is m1, m2, and its length two exceeds
    the bound zero. *)
Theorem cache_message_zero_bound_keeps_all :
  snapshot (on_messages (config_with_cache_bound 0) ∅ [m1; m2]) 7
  = [entry_of m1; entry_of m2]
  ∧ ¬ (Z.of_nat
         (length (snapshot (on_messages (config_with_cache_bound 0) ∅ [m1; m2]) 7))
       ≤ MAX_MESSAGES_TO_SUMMARIZE (config_with_cache_bound 0)).
Proof. split; [vm_compute; reflexivity | vm_compute; intros H; by apply H]. Qed.

(** C3. A message of a user account whose content is empty or blank is
    recorded: on the empty cache on_message puts it in the channel's
    snapshot, which was empty before, while get_recent_messages leaves the
    same messages out. *)
Theorem on_message_blank_content_recorded :
  snapshot (on_message dyadic default_config ∅ empty_event) 7
  = [entry_of empty_event]
  ∧ snapshot (on_message dyadic default_config ∅ blank_event) 7
    = [entry_of blank_event]
  ∧ snapshot (on_message dyadic default_config ∅ empty_event) 7 ≠ snapshot ∅ 7
  ∧ get_recent_messages dyadic default_config
      (λ _, [blank_event; empty_event]) None = [].
Proof.
  repeat split; try (vm_compute; reflexivity). vm_compute. discriminate.
Qed.

(** C1 as stated fails for a negative budget: nothing is kept, and the total
    length zero of the empty result is not at most -1. *)
Lemma truncate_conversation_negative_budget_counterexample :
  ¬ (truncate_conversation default_config [] (Some (-1)) `suffix_of` []
     ∧ serialized_length (truncate_conversation default_config [] (Some (-1)))
       ≤ -1).
Proof. intros [_ H]. vm_compute in H. by apply H. Qed.

Lemma truncate_conversation_empty_iff_witness :
  budget default_config (Some 0) ≤ 0
  ∧ truncate_conversation default_config [mk_message "A" "hello" 0] (Some 0)
    = [].
Proof.
  split; [unfold budget; simpl; lia|].
  apply (truncate_conversation_empty_iff default_config
           [mk_message "A" "hello" 0] (Some 0)).
  unfold budget; simpl; lia.
Defined.

(** C8 as stated, with the content rendered as stored, fails on a content
    with surrounding blanks: the code renders the trimmed content. *)
Lemma format_conversation_literal_counterexample :
  _format_conversation [mk_message "A" " hello " 0]
  ≠ formatConversation_literal [mk_message "A" " hello " 0].
Proof. vm_compute. discriminate. Qed.

Lemma format_conversation_trimmed_lines_witness :
  _format_conversation [mk_message "A" " hello " 0; mk_message "B" "  " 1]
  = formatConversation_trimmed
      [mk_message "A" " hello " 0; mk_message "B" "  " 1].
Proof.
  apply (format_conversation_trimmed_lines
           [mk_message "A" " hello " 0; mk_message "B" "  " 1]).
  repeat constructor; simpl; eauto.
Defined.

Lemma format_conversation_truncated_within_budget_witness :
  PyStr.len
    (_format_conversation
       (truncate_conversation default_config
          [mk_message "A" "hello" 0; mk_message "B" " hi " 1] (Some 10)))
  ≤ 10.
Proof.
  apply (format_conversation_truncated_within_budget default_config
           [mk_message "A" "hello" 0; mk_message "B" " hi " 1] (Some 10)).
  - repeat constructor; simpl; eauto.
  - unfold budget; simpl; lia.
Defined.

(** Without an author key the two functions disagree on the default, and the
    formatted text can exceed the budget. *)
Example format_conversation_unknown_author :
  let msg := {| author := None; content := Some "x"; timestamp := None |} in
  truncate_conversation default_config [msg] (Some 4) = [msg]
  ∧ PyStr.len (_format_conversation [msg]) = 10.
Proof. split; reflexivity. Qed.

Lemma summarize_conversation_never_raises_witness :
  let service := λ _ : chat_request dyadic, Returned "  A greets B.  " in
  ∃ result w',
    summarize_conversation dyadic default_config service None
      [mk_message "A" "hello" 0] initial_world
    = (Returned result, w')
    ∧ result
      = expected_summary None
          (service (summarization_request default_config
                      [mk_message "A" "hello" 0]))
    ∧ result ≠ Some "".
Proof.
  intros service.
  apply (summarize_conversation_never_raises default_config service None
           [mk_message "A" "hello" 0] initial_world).
  discriminate.
Defined.

Lemma truncate_conversation_heap_frame_witness :
  ∃ out h',
    truncate_conversation_heap default_config 1%positive (Some 6) sample_heap
    = Some (out, h')
    ∧ (out ∉ dom sample_heap)
    ∧ (∀ l, l ∈ dom sample_heap → h' !! l = sample_heap !! l)
    ∧ deref_list h' 1%positive
      = Some [mk_message "A" "hello" 0; mk_message "B" "hi" 1]
    ∧ deref_list h' out
      = Some (truncate_conversation default_config
                [mk_message "A" "hello" 0; mk_message "B" "hi" 1] (Some 6)).
Proof.
  apply (truncate_conversation_heap_frame default_config sample_heap
           1%positive [mk_message "A" "hello" 0; mk_message "B" "hi" 1]
           (Some 6)).
  reflexivity.
Defined.

(** * Further properties of the code *)

(** ** Truncation: fitting conversations, budgets and older messages *)

Lemma truncate_loop_acc (C : Z) (pending acc : list Message) (cur : Z) :
  truncate_loop C pending acc cur = truncate_loop C pending [] cur ++ acc.
Proof.
  revert acc cur. induction pending as [|m p IH]; intros acc cur; simpl; [done|].
  destruct (cur + msg_length m <=? C); [|done].
  rewrite (IH (m :: acc)), (IH [m]), <- app_assoc. done.
Qed.

Lemma truncate_loop_over (C : Z) (pending acc : list Message) (cur : Z) :
  C < cur → truncate_loop C pending acc cur = acc.
Proof.
  intros Hover. destruct pending as [|m p]; simpl; [done|].
  pose proof (msg_length_pos m).
  destruct (Z.leb_spec (cur + msg_length m) C); [lia | done].
Qed.

(** The loop over what is pending in two parts: when the first part fits as
    a whole the loop goes on with the second, otherwise the second part is
    never looked at. *)
Lemma truncate_loop_app (C : Z) (p r acc : list Message) (cur : Z) :
  truncate_loop C (p ++ r) acc cur
  = if cur + serialized_length p <=? C
    then truncate_loop C r (reverse p ++ acc) (cur + serialized_length p)
    else truncate_loop C p acc cur.
Proof.
  revert acc cur. induction p as [|m p IH]; intros acc cur.
  - simpl. rewrite Z.add_0_r.
    destruct (Z.leb_spec cur C); [done|]. by apply truncate_loop_over.
  - cbn [app truncate_loop serialized_length foldr].
    fold (serialized_length p). pose proof (serialized_length_nonneg p).
    destruct (Z.leb_spec (cur + msg_length m) C) as [Hfit|Hover].
    + rewrite IH, reverse_cons, <- app_assoc, Z.add_assoc. done.
    + destruct (Z.leb_spec (cur + (msg_length m + serialized_length p)) C);
        [lia | done].
Qed.

Lemma truncate_loop_mono (C1 C2 : Z) (pending : list Message) (cur : Z) :
  C1 ≤ C2 →
  truncate_loop C1 pending [] cur `suffix_of` truncate_loop C2 pending [] cur.
Proof.
  intros Hle. revert cur. induction pending as [|m p IH]; intros cur; simpl.
  - done.
  - destruct (Z.leb_spec (cur + msg_length m) C1) as [Hfit|Hover].
    + destruct (Z.leb_spec (cur + msg_length m) C2); [|lia].
      rewrite (truncate_loop_acc C1 p [m]), (truncate_loop_acc C2 p [m]).
      by apply suffix_app.
    + apply suffix_nil.
Qed.

Section TruncationBudgets.
Context {float : Type} (cfg : Config float).

(** X1. A conversation whose total serialized length is within the budget is
    returned by truncate_conversation as it is. *)
Theorem truncate_conversation_fits (messages : list Message)
    (max_length : option Z) :
  serialized_length messages ≤ budget cfg max_length →
  truncate_conversation cfg messages max_length = messages.
Proof.
  intros Hfit. unfold truncate_conversation. fold (budget cfg max_length).
  rewrite truncate_loop_all.
  - by rewrite reverse_involutive, app_nil_r.
  - rewrite serialized_length_reverse. lia.
Qed.

(** X2. truncate_conversation stops at the first message that does not fit:
    when a message is dropped, the most recent dropped message together with
    everything kept exceeds the budget, even when an older and shorter
    message would still have fitted. *)
Theorem truncate_conversation_stops_at_overflow (older : list Message)
    (m : Message) (messages : list Message) (max_length : option Z) :
  messages = older ++ m :: truncate_conversation cfg messages max_length →
  budget cfg max_length
  < msg_length m
    + serialized_length (truncate_conversation cfg messages max_length).
Proof.
  intros Hsplit.
  destruct (truncate_conversation_spec cfg messages max_length)
    as (dropped & Hdropped & _ & Hstop).
  assert (dropped = older ++ [m]) as Hd.
  { eapply app_inv_tail. rewrite <- Hdropped, <- app_assoc. exact Hsplit. }
  specialize (Hstop m older Hd). lia.
Qed.

(** X3. A larger budget keeps at least what a smaller budget keeps: the
    result for the smaller budget is a suffix of the result for the larger
    one. *)
Theorem truncate_conversation_budget_monotone (messages : list Message)
    (small large : option Z) :
  budget cfg small ≤ budget cfg large →
  truncate_conversation cfg messages small
  `suffix_of` truncate_conversation cfg messages large.
Proof. intros Hle. by apply truncate_loop_mono. Qed.

(** X5. Older messages put in front of a conversation never push a message
    out of the result, and when the conversation alone is already cut they
    do not change the result at all. *)
Theorem truncate_conversation_older_messages (older messages : list Message)
    (max_length : option Z) :
  truncate_conversation cfg messages max_length
  `suffix_of` truncate_conversation cfg (older ++ messages) max_length
  ∧ (truncate_conversation cfg messages max_length ≠ messages →
     truncate_conversation cfg (older ++ messages) max_length
     = truncate_conversation cfg messages max_length).
Proof.
  unfold truncate_conversation. fold (budget cfg max_length).
  rewrite reverse_app, truncate_loop_app, app_nil_r, reverse_involutive.
  rewrite serialized_length_reverse, Z.add_0_l.
  destruct (Z.leb_spec (serialized_length messages) (budget cfg max_length))
    as [Hfit|Hover].
  - rewrite (truncate_loop_all _ (reverse messages))
      by (rewrite serialized_length_reverse; lia).
    rewrite reverse_involutive, app_nil_r. split.
    + rewrite truncate_loop_acc. by apply suffix_app_r.
    + done.
  - done.
Qed.

(** X4. Truncating to a budget and then to a smaller one gives the same
    result as truncating to the smaller budget at once. *)
Theorem truncate_conversation_budgets_compose (messages : list Message)
    (small large : option Z) :
  budget cfg small ≤ budget cfg large →
  truncate_conversation cfg
    (truncate_conversation cfg messages large) small
  = truncate_conversation cfg messages small.
Proof.
  intros Hle.
  destruct (truncate_conversation_spec cfg messages large)
    as (dropped & Hsplit & _ & Hstop).
  remember (truncate_conversation cfg messages large) as kept eqn:Hkept.
  clear Hkept. subst messages.
  unfold truncate_conversation. fold (budget cfg small).
  rewrite reverse_app, truncate_loop_app, app_nil_r, reverse_involutive.
  rewrite serialized_length_reverse, Z.add_0_l.
  destruct (Z.leb_spec (serialized_length kept) (budget cfg small))
    as [Hfit|Hover]; [|done].
  rewrite (truncate_loop_all _ (reverse kept))
    by (rewrite serialized_length_reverse; lia).
  rewrite reverse_involutive, app_nil_r.
  destruct dropped as [|d dropped _] using rev_ind; [done|].
  rewrite reverse_snoc. simpl.
  specialize (Hstop d dropped eq_refl).
  destruct (Z.leb_spec (serialized_length kept + msg_length d)
              (budget cfg small)); [lia | done].
Qed.
End TruncationBudgets.

Lemma truncate_conversation_fits_witness :
  truncate_conversation default_config
    [mk_message "A" "hello" 0; mk_message "B" "hi" 1] (Some 15)
  = [mk_message "A" "hello" 0; mk_message "B" "hi" 1].
Proof.
  apply (truncate_conversation_fits default_config
           [mk_message "A" "hello" 0; mk_message "B" "hi" 1] (Some 15)).
  vm_compute. discriminate.
Defined.

Lemma truncate_conversation_stops_at_overflow_witness :
  budget default_config (Some 10)
  < msg_length (mk_message "A" "hello" 0)
    + serialized_length
        (truncate_conversation default_config
           [mk_message "C" "" 0; mk_message "A" "hello" 0; mk_message "B" "hi" 1]
           (Some 10)).
Proof.
  apply (truncate_conversation_stops_at_overflow default_config
           [mk_message "C" "" 0] (mk_message "A" "hello" 0)
           [mk_message "C" "" 0; mk_message "A" "hello" 0; mk_message "B" "hi" 1]
           (Some 10)).
  reflexivity.
Defined.

Lemma truncate_conversation_budget_monotone_witness :
  truncate_conversation default_config
    [mk_message "A" "hello" 0; mk_message "B" "hi" 1] (Some 6)
  `suffix_of`
  truncate_conversation default_config
    [mk_message "A" "hello" 0; mk_message "B" "hi" 1] None.
Proof.
  apply (truncate_conversation_budget_monotone default_config
           [mk_message "A" "hello" 0; mk_message "B" "hi" 1] (Some 6) None).
  vm_compute. discriminate.
Defined.

Lemma truncate_conversation_budgets_compose_witness :
  truncate_conversation default_config
    (truncate_conversation default_config
       [mk_message "A" "hello" 0; mk_message "B" "hi" 1] None) (Some 6)
  = truncate_conversation default_config
      [mk_message "A" "hello" 0; mk_message "B" "hi" 1] (Some 6).
Proof.
  apply (truncate_conversation_budgets_compose default_config
           [mk_message "A" "hello" 0; mk_message "B" "hi" 1] (Some 6) None).
  vm_compute. discriminate.
Defined.

Lemma truncate_conversation_older_messages_witness :
  truncate_conversation default_config
    ([mk_message "C" "" 0]
     ++ [mk_message "A" "hello" 0; mk_message "B" "hi" 1]) (Some 10)
  = truncate_conversation default_config
      [mk_message "A" "hello" 0; mk_message "B" "hi" 1] (Some 10).
Proof.
  apply (truncate_conversation_older_messages default_config
           [mk_message "C" "" 0]
           [mk_message "A" "hello" 0; mk_message "B" "hi" 1] (Some 10)).
  vm_compute. discriminate.
Defined.

(** ** Truncation on the heap: the result shares the messages *)

(** The loop only ever puts references of the input list in front of the
    new list, most recent first. *)
Lemma truncate_steps_refs (C : Z) (h0 : gmap loc pyobj) (messages out : loc)
    (items : list loc) (msgs : list Message) :
  h0 !! messages = Some (PyList items) →
  h0 !! out = None →
  Forall2 (λ r m, deref_dict h0 r = Some m) items msgs →
  ∀ (idx : nat) (acc : list loc) (cur : Z) (h' : gmap loc pyobj),
    (idx ≤ length items)%nat →
    truncate_steps C messages out idx cur (<[out := PyList acc]> h0) = Some h' →
    ∃ k, k `suffix_of` take idx items ∧ h' = <[out := PyList (k ++ acc)]> h0.
Proof.
  intros Hmsgs Hout Hitems.
  assert (messages ≠ out) as Hne by congruence.
  induction idx as [|i IH]; intros acc cur h' Hidx Hrun.
  - exists []. split; [apply suffix_nil|]. by simplify_eq/=.
  - cbn [truncate_steps] in Hrun.
    rewrite lookup_insert_ne, Hmsgs in Hrun by done.
    cbn [mbind option_bind as_list] in Hrun.
    destruct (lookup_lt_is_Some_2 items i ltac:(lia)) as [r Hr].
    rewrite Hr in Hrun.
    destruct (Forall2_lookup_l _ _ _ _ _ Hitems Hr) as (m & Hm & Hrm).
    apply deref_dict_Some in Hrm.
    rewrite lookup_insert_ne, Hrm in Hrun by congruence.
    cbn [mbind option_bind as_dict] in Hrun.
    rewrite (take_S_r _ _ _ Hr).
    destruct (cur + msg_length m <=? C).
    + rewrite alter_insert_eq in Hrun. cbn [insert_front] in Hrun.
      destruct (IH (r :: acc) _ h' ltac:(lia) Hrun) as (k & Hk & ->).
      exists (k ++ [r]). split; [by apply suffix_app|].
      by rewrite <- app_assoc.
    + exists []. split; [apply suffix_nil|]. by simplify_eq.
Qed.

Section HeapSharing.
Context {float : Type} (cfg : Config float).

(** X6. The list truncate_conversation returns holds references to the very
    message dictionaries of its input, not copies: its items are a suffix of
    the items of the input list. *)
Theorem truncate_conversation_heap_shares (h h' : gmap loc pyobj)
    (messages out : loc) (items : list loc) (msgs : list Message)
    (max_length : option Z) :
  h !! messages = Some (PyList items) →
  deref_list h messages = Some msgs →
  truncate_conversation_heap cfg messages max_length h = Some (out, h') →
  ∃ kept, h' !! out = Some (PyList kept) ∧ kept `suffix_of` items.
Proof.
  intros Hmsgs Hderef Hrun. unfold deref_list in Hderef.
  rewrite Hmsgs in Hderef. cbn [mbind option_bind as_list] in Hderef.
  apply mapM_Some in Hderef.
  unfold truncate_conversation_heap in Hrun. rewrite Hmsgs in Hrun.
  cbn [mbind option_bind as_list] in Hrun.
  destruct (truncate_steps _ _ _ _ _ _) as [h''|] eqn:Hsteps; [|done].
  simplify_eq.
  assert (h !! fresh (dom h) = None) as Hout by apply not_elem_of_dom, is_fresh.
  destruct (truncate_steps_refs _ h messages _ items msgs Hmsgs Hout Hderef
              (length items) [] 0 h' (Nat.le_refl _) Hsteps) as (k & Hk & ->).
  exists k. rewrite lookup_insert_eq, app_nil_r.
  split; [done|]. by rewrite firstn_all in Hk.
Qed.
End HeapSharing.

Lemma truncate_conversation_heap_shares_witness :
  ∃ kept,
    <[4%positive := PyList [3%positive]]> sample_heap !! 4%positive
    = Some (PyList kept)
    ∧ kept `suffix_of` [2%positive; 3%positive].
Proof.
  apply (truncate_conversation_heap_shares default_config sample_heap
           (<[4%positive := PyList [3%positive]]> sample_heap)
           1%positive 4%positive [2%positive; 3%positive]
           [mk_message "A" "hello" 0; mk_message "B" "hi" 1] (Some 6)).
  - reflexivity.
  - reflexivity.
  - vm_compute. reflexivity.
Defined.

(** ** Trimming *)

Lemma rstrip_cons (c : ascii) (s : string) :
  PyStr.rstrip (String c s)
  = match PyStr.rstrip s with
    | EmptyString => if PyStr.isspace c then EmptyString else String c EmptyString
    | r => String c r
    end.
Proof. reflexivity. Qed.

Lemma rstrip_idempotent (s : string) :
  PyStr.rstrip (PyStr.rstrip s) = PyStr.rstrip s.
Proof.
  induction s as [|c s IH]; [done|]. rewrite rstrip_cons.
  destruct (PyStr.rstrip s) as [|c' r] eqn:Hr.
  - destruct (PyStr.isspace c) eqn:Hc; [done|]. simpl. by rewrite Hc.
  - rewrite rstrip_cons, IH. done.
Qed.

(** What [lstrip] returns is empty or starts with a character that is not
    a space. *)
Lemma lstrip_head (s : string) :
  match PyStr.lstrip s with
  | EmptyString => True
  | String c _ => PyStr.isspace c = false
  end.
Proof.
  induction s as [|c s IH]; [done|]. simpl.
  destruct (PyStr.isspace c) eqn:Hc; [exact IH | exact Hc].
Qed.

Lemma rstrip_cons_nonspace (c : ascii) (s : string) :
  PyStr.isspace c = false →
  PyStr.rstrip (String c s) = String c (PyStr.rstrip s).
Proof.
  intros Hc. rewrite rstrip_cons.
  destruct (PyStr.rstrip s); [by rewrite Hc | done].
Qed.

Lemma strip_idempotent (s : string) :
  PyStr.strip (PyStr.strip s) = PyStr.strip s.
Proof.
  unfold PyStr.strip. pose proof (lstrip_head s) as Hhead.
  destruct (PyStr.lstrip s) as [|c t]; [done|].
  rewrite (rstrip_cons_nonspace c t Hhead).
  cbn [PyStr.lstrip]. rewrite Hhead.
  by rewrite !(rstrip_cons_nonspace _ _ Hhead), rstrip_idempotent.
Qed.

(** ** Formatting: empty text and concatenation *)

Lemma string_app_assoc (s1 s2 s3 : string) :
  (s1 +:+ s2) +:+ s3 = s1 +:+ s2 +:+ s3.
Proof.
  induction s1 as [|c s1 IH]; [done|].
  change (String c ((s1 +:+ s2) +:+ s3) = String c (s1 +:+ s2 +:+ s3)).
  by rewrite IH.
Qed.

Lemma len_zero (s : string) : PyStr.len s = 0 ↔ s = "".
Proof. destruct s; unfold PyStr.len; simpl; split; intros; [done | lia | done | done]. Qed.

Lemma formatted_line_qualifying_len (msg : Message) :
  qualifying msg = true → 3 ≤ PyStr.len (formatted_line msg).
Proof.
  unfold qualifying, formatted_line. intros Hq. rewrite !len_app.
  change (PyStr.len ": ") with 2.
  pose proof (len_nonneg (get (author msg) "Unknown")).
  destruct (PyStr.strip (get (content msg) "")) as [|c t]; [done|].
  unfold PyStr.len at 2. simpl String.length. lia.
Qed.

Lemma lines_length_nonneg (parts : list string) : 0 ≤ lines_length parts.
Proof.
  induction parts as [|p ps IH]; simpl; [lia|].
  pose proof (len_nonneg p). lia.
Qed.

Lemma filter_qualifying_nil (messages : list Message) :
  List.filter qualifying messages = []
  ↔ Forall (λ msg, qualifying msg = false) messages.
Proof.
  induction messages as [|m l IH]; simpl.
  - split; [constructor | done].
  - destruct (qualifying m) eqn:Hq.
    + split; [done|]. intros H. inversion H; congruence.
    + rewrite IH. split; [by constructor | by inversion 1].
Qed.

Lemma join_nl_app (a b : list string) :
  a ≠ [] → b ≠ [] →
  PyStr.join PyStr.nl (a ++ b)
  = PyStr.join PyStr.nl a +:+ PyStr.nl +:+ PyStr.join PyStr.nl b.
Proof.
  intros Ha Hb. induction a as [|p a IH]; [done|].
  destruct a as [|q a].
  - destruct b as [|r b]; [done|]. reflexivity.
  - change (PyStr.join PyStr.nl ((p :: q :: a) ++ b))
      with (p +:+ PyStr.nl +:+ PyStr.join PyStr.nl ((q :: a) ++ b)).
    rewrite IH by done.
    change (PyStr.join PyStr.nl (p :: q :: a))
      with (p +:+ PyStr.nl +:+ PyStr.join PyStr.nl (q :: a)).
    by rewrite !string_app_assoc.
Qed.

Lemma format_conversation_no_lines (messages : list Message) :
  _format_conversation messages = "" ↔ List.filter qualifying messages = [].
Proof.
  rewrite format_conversation_lines.
  destruct (List.filter qualifying messages) as [|m l] eqn:Hf; [done|].
  split; [|done]. intros Hempty. apply len_zero in Hempty.
  rewrite join_nl_len in Hempty by done.
  assert (qualifying m = true) as Hq.
  { assert (In m (List.filter qualifying messages)) as Hin
      by (rewrite Hf; by left).
    by apply List.filter_In in Hin as [_ ?]. }
  pose proof (formatted_line_qualifying_len m Hq).
  pose proof (lines_length_nonneg (map formatted_line l)).
  change (lines_length (map formatted_line (m :: l)))
    with (PyStr.len (formatted_line m) + 1 + lines_length (map formatted_line l))
    in Hempty.
  lia.
Qed.

(** X7. The text _format_conversation builds is empty exactly when no message
    has a content that is not blank; an empty list of messages is one such
    case. *)
Theorem format_conversation_empty_iff (messages : list Message) :
  _format_conversation messages = ""
  ↔ Forall (λ msg, qualifying msg = false) messages.
Proof.
  rewrite format_conversation_no_lines. apply filter_qualifying_nil.
Qed.

(** X8. Formatting two conversations one after the other: when both texts
    are not empty, the text of the whole is the two texts joined by one
    newline; when one is empty, it is the other. *)
Theorem format_conversation_app (first second : list Message) :
  _format_conversation (first ++ second)
  = if PyStr.truthy (_format_conversation first)
    then if PyStr.truthy (_format_conversation second)
         then _format_conversation first +:+ PyStr.nl
              +:+ _format_conversation second
         else _format_conversation first
    else _format_conversation second.
Proof.
  destruct (PyStr.truthy (_format_conversation first)) eqn:Hfirst;
    [destruct (PyStr.truthy (_format_conversation second)) eqn:Hsecond|].
  - apply truthy_true in Hfirst, Hsecond.
    rewrite format_conversation_no_lines in Hfirst.
    rewrite format_conversation_no_lines in Hsecond.
    rewrite !format_conversation_lines, List.filter_app, map_app.
    apply join_nl_app.
    + intros H. by apply map_eq_nil in H.
    + intros H. by apply map_eq_nil in H.
  - apply truthy_false, format_conversation_no_lines in Hsecond.
    by rewrite !format_conversation_lines, List.filter_app, Hsecond, app_nil_r.
  - apply truthy_false, format_conversation_no_lines in Hfirst.
    by rewrite !format_conversation_lines, List.filter_app, Hfirst.
Qed.

(** ** The summarization client: requests, diagnostics and the probe *)

Section ClientRuns.
Context {float : Type} (cfg : Config float).
Variable client_chat : chat_request float → outcome string.
Variable executor_fault : option exn.

(** The whole effect of a call on a conversation that is not empty. *)
Lemma summarize_conversation_run (messages : list Message) (w : world float) :
  messages ≠ [] →
  summarize_conversation float cfg client_chat executor_fault messages w
  = (Returned
       (expected_summary executor_fault
          (client_chat (summarization_request cfg messages))),
     {| calls :=
          calls w
          ++ match executor_fault with
             | None => [summarization_request cfg messages]
             | Some _ => []
             end;
        stdout :=
          stdout w
          ++ expected_diagnostics executor_fault
               (client_chat (summarization_request cfg messages)) |}).
Proof.
  intros Hne. destruct messages as [|m l]; [done|].
  unfold summarize_conversation, _call_ollama, run_in_executor,
    _sync_ollama_call, expected_summary, expected_diagnostics.
  fold (summarization_request cfg (m :: l)).
  unfold try_except, bind, send, ret, raise, print.
  destruct executor_fault as [e|]; simpl.
  - by rewrite app_nil_r.
  - destruct (client_chat (summarization_request cfg (m :: l))) as [text|e];
      simpl.
    + rewrite truthy_and_strip, app_nil_r.
      by destruct (PyStr.truthy (PyStr.strip text)).
    + done.
Qed.

(** X9. Whatever summarize_conversation returns as a summary, on any list of
    messages, is not empty and has no leading or trailing whitespace. *)
Theorem summarize_conversation_summary_trimmed (messages : list Message)
    (w w' : world float) (summary : string) :
  summarize_conversation float cfg client_chat executor_fault messages w
  = (Returned (Some summary), w') →
  PyStr.strip summary = summary ∧ summary ≠ "".
Proof.
  destruct messages as [|m l].
  - intros [= <- _]. split; [reflexivity | discriminate].
  - rewrite summarize_conversation_run by done. intros [= Hsum _].
    unfold expected_summary in Hsum.
    destruct executor_fault; [done|].
    destruct (client_chat _) as [text|]; [|done].
    destruct (PyStr.truthy (PyStr.strip text)) eqn:Ht; [|done].
    simplify_eq. split; [apply strip_idempotent | by apply truthy_true].
Qed.

(** X10. On a conversation that is not empty summarize_conversation sends
    exactly one request when the executor runs the call, whatever the service
    answers, and none when the executor fails; the request carries the
    configured model, temperature and token limit, the system instruction
    and the prompt built from the formatted conversation, and the requests
    sent before stay in the log. *)
Theorem summarize_conversation_requests (messages : list Message)
    (w : world float) :
  messages ≠ [] →
  calls (summarize_conversation float cfg client_chat executor_fault
           messages w).2
  = calls w
    ++ match executor_fault with
       | None =>
           [ {| req_model := OLLAMA_MODEL cfg;
                req_messages :=
                  [ {| role := "system"; chat_content := system_instruction |};
                    {| role := "user";
                       chat_content :=
                         _create_summarization_prompt
                           (_format_conversation messages) |} ];
                req_temperature := TEMPERATURE cfg;
                req_num_predict := MAX_TOKENS cfg |} ]
       | Some _ => []
       end.
Proof. intros Hne. by rewrite summarize_conversation_run. Qed.

(** X11. On a conversation that is not empty summarize_conversation prints
    one line when the call raised, the line of the handler that caught it,
    and nothing otherwise: a blank response makes it fail without a line,
    and its own handler never prints. *)
Theorem summarize_conversation_diagnostics (messages : list Message)
    (w : world float) :
  messages ≠ [] →
  stdout (summarize_conversation float cfg client_chat executor_fault
            messages w).2
  = stdout w
    ++ match executor_fault,
             client_chat (summarization_request cfg messages) with
       | Some e, _ => ["Error calling Ollama: " +:+ exn_text e]
       | None, Raised e => ["Error in Ollama call: " +:+ exn_text e]
       | None, Returned _ => []
       end.
Proof. intros Hne. by rewrite summarize_conversation_run. Qed.

(** X12. A conversation that is not empty but whose messages are all blank
    is still sent for summarization: the request goes out with the prompt
    built around the empty conversation text. *)
Theorem summarize_conversation_blank_messages (messages : list Message)
    (w : world float) :
  messages ≠ [] →
  Forall (λ msg, qualifying msg = false) messages →
  executor_fault = None →
  calls (summarize_conversation float cfg client_chat executor_fault
           messages w).2
  = calls w ++ [summarization_request cfg []].
Proof.
  intros Hne Hblank Hfault. rewrite summarize_conversation_run by done.
  rewrite Hfault. simpl.
  apply filter_qualifying_nil, format_conversation_no_lines in Hblank.
  unfold summarization_request. by rewrite Hblank.
Qed.

Variable client_list : outcome unit.

(** X13. test_connection never raises and sends no chat request: it returns
    True when the executor runs the probe and the probe returns, and False,
    after printing one line, when either fails. *)
Theorem test_connection_never_raises (w : world float) :
  ∃ ok w',
    test_connection float executor_fault client_list w = (Returned ok, w')
    ∧ calls w' = calls w
    ∧ (ok = true ↔ executor_fault = None ∧ client_list = Returned tt)
    ∧ (ok = true → stdout w' = stdout w)
    ∧ (ok = false → ∃ line, stdout w' = stdout w ++ [line]).
Proof.
  unfold test_connection, run_in_executor, try_except, bind, of_outcome,
    raise, ret, print.
  destruct executor_fault as [e|]; [|destruct client_list as [[]|e]];
    eexists _, _; (split; [reflexivity|]); simpl;
    (split; [done|]); (split; [split; [by intros; try split | by intros [??]]|]);
    split; intros; eauto; done.
Qed.
End ClientRuns.

(** ** The message cache: channels, keys and the newest entry *)

Lemma py_slice_from_drop {A} (start : Z) (l : list A) :
  ∃ n, py_slice_from start l = drop n l.
Proof. unfold py_slice_from. by eexists. Qed.

Lemma keep_recent_drop {float} (cfg : Config float) (l : list Message) :
  ∃ n, keep_recent cfg l = drop n l.
Proof.
  unfold keep_recent. destruct (_ <? _); [apply py_slice_from_drop|].
  by exists 0%nat.
Qed.

Section CacheChannels.
Context {float : Type} (cfg : Config float).

(** X14. A message only touches the cache of its own channel: the entry of
    every other channel, present or not, is the same after on_message. *)
Theorem on_message_other_channel (message_cache : gmap Z (list Message))
    (message : DiscordMessage) (channel : Z) :
  channel ≠ channel_id message →
  on_message float cfg message_cache message !! channel
  = message_cache !! channel.
Proof.
  intros Hne. unfold on_message. destruct (author_bot message); [done|].
  by rewrite cache_message_lookup, decide_False.
Qed.

(** X15. The cache never loses a channel: a message of a bot leaves the set
    of cached channels as it is, and any other message adds its channel to
    it, creating the entry when the channel is seen for the first time. *)
Theorem on_message_channels (message_cache : gmap Z (list Message))
    (message : DiscordMessage) :
  dom (on_message float cfg message_cache message)
  = if author_bot message then dom message_cache
    else {[channel_id message]} ∪ dom message_cache.
Proof.
  unfold on_message. destruct (author_bot message); [done|].
  apply set_eq. intros c.
  rewrite elem_of_union, elem_of_singleton, !elem_of_dom, cache_message_lookup.
  destruct (decide (c = channel_id message)) as [->|Hne].
  - split; [by left | by eexists].
  - split; [by right | by intros [?|?]].
Qed.

(** X16. With a bound of at least one, after any sequence of message events
    on the empty cache a channel's cache holds exactly the most recent
    entries recorded for the channel, those of its messages that are not
    from a bot, in order of arrival, and never more than the bound. *)
Theorem on_messages_keeps_most_recent (events : list DiscordMessage)
    (channel : Z) :
  1 ≤ MAX_MESSAGES_TO_SUMMARIZE cfg →
  snapshot (on_messages cfg ∅ events) channel
  = lastn (Z.to_nat (MAX_MESSAGES_TO_SUMMARIZE cfg)) (recorded channel events)
  ∧ Z.of_nat (length (snapshot (on_messages cfg ∅ events) channel))
    ≤ MAX_MESSAGES_TO_SUMMARIZE cfg.
Proof.
  intros Hn. split;
    [by apply snapshot_on_messages | by apply snapshot_on_messages_length].
Qed.

(** X17. With a bound that is not negative, the entry of a message that is
    not from a bot is the last one of its channel's cache right after
    on_message, whatever was cached before. *)
Theorem on_message_newest_last (message_cache : gmap Z (list Message))
    (message : DiscordMessage) :
  author_bot message = false →
  0 ≤ MAX_MESSAGES_TO_SUMMARIZE cfg →
  last (snapshot (on_message float cfg message_cache message)
          (channel_id message))
  = Some (entry_of message).
Proof.
  intros Hbot Hn. unfold on_message. rewrite Hbot.
  rewrite snapshot_cache_message, decide_True by done.
  destruct (decide (MAX_MESSAGES_TO_SUMMARIZE cfg = 0)) as [Hz|Hnz].
  - rewrite keep_recent_zero by done. apply last_snoc.
  - rewrite keep_recent_lastn by lia. unfold lastn.
    rewrite length_app. simpl. rewrite drop_app_le by lia. apply last_snoc.
Qed.

(** X18. With a negative bound nothing is ever cached: after any sequence of
    message events on the empty cache every channel's cache is empty. *)
Theorem on_messages_negative_bound (events : list DiscordMessage)
    (channel : Z) :
  MAX_MESSAGES_TO_SUMMARIZE cfg < 0 →
  snapshot (on_messages cfg ∅ events) channel = [].
Proof.
  intros Hn. induction events as [|e events IH] using rev_ind; [done|].
  unfold on_messages in *. rewrite foldl_snoc.
  unfold on_message at 1. destruct (author_bot e); [done|].
  rewrite snapshot_cache_message. case_decide; [|done].
  rewrite IH. unfold keep_recent, py_slice_from. simpl.
  destruct (Z.ltb_spec (MAX_MESSAGES_TO_SUMMARIZE cfg) (Z.of_nat 1)); [|lia].
  destruct (Z.ltb_spec (- MAX_MESSAGES_TO_SUMMARIZE cfg) 0); [lia|].
  by replace (Z.to_nat (Z.min (- MAX_MESSAGES_TO_SUMMARIZE cfg) (Z.of_nat 1)))
    with 1%nat by lia.
Qed.

(** Every cached entry was built by [cache_message]: it has an author and a
    content. *)
Lemma on_messages_well_formed (events : list DiscordMessage) (channel : Z) :
  Forall well_formed (snapshot (on_messages cfg ∅ events) channel).
Proof.
  induction events as [|e events IH] using rev_ind; [constructor|].
  unfold on_messages in *. rewrite foldl_snoc.
  unfold on_message at 1. destruct (author_bot e); [done|].
  rewrite snapshot_cache_message. case_decide; [|done].
  destruct (keep_recent_drop cfg
              (snapshot (foldl (on_message float cfg) ∅ events) channel
               ++ [entry_of e])) as [n ->].
  apply Forall_drop, Forall_app. split; [done|].
  constructor; [|constructor]. split; by eexists.
Qed.

(** X21. Whatever the cache bound and the events, the text built from a
    channel's cache on the way summarize_cached takes, truncation with the
    configured budget and then formatting, is no longer than that budget
    when the budget is not negative. *)
Theorem cached_conversation_within_budget (events : list DiscordMessage)
    (channel : Z) :
  0 ≤ MAX_MESSAGE_LENGTH cfg →
  PyStr.len
    (_format_conversation
       (truncate_conversation cfg
          (snapshot (on_messages cfg ∅ events) channel) None))
  ≤ MAX_MESSAGE_LENGTH cfg.
Proof.
  intros Hbudget.
  pose proof (on_messages_well_formed events channel) as Hwf.
  destruct (truncate_conversation_spec cfg
              (snapshot (on_messages cfg ∅ events) channel) None)
    as (dropped & Hsplit & Hsum & _).
  rewrite Hsplit in Hwf. apply Forall_app in Hwf as [_ Hwf].
  assert (Forall (λ msg, is_Some (author msg))
            (truncate_conversation cfg
               (snapshot (on_messages cfg ∅ events) channel) None)) as Hauth.
  { eapply Forall_impl; [exact Hwf|]. by intros m [? _]. }
  pose proof (format_conversation_len _ Hauth) as Hlen.
  unfold budget in Hsum. simpl in Hsum.
  destruct (truncate_conversation cfg _ None) as [|m r].
  - exact Hbudget.
  - specialize (Hsum ltac:(discriminate)). lia.
Qed.
End CacheChannels.

(** ** get_recent_messages *)

Lemma recent_loop_kept (history : list DiscordMessage) (acc : list Message) :
  recent_loop history acc
  = acc ++ map entry_of (List.filter kept_by_history history).
Proof.
  revert acc. induction history as [|e h IH]; intros acc; simpl.
  - by rewrite app_nil_r.
  - fold (kept_by_history e). destruct (kept_by_history e); simpl.
    + by rewrite IH, <- app_assoc.
    + apply IH.
Qed.

Lemma reverse_map {A B} (f : A → B) (l : list A) :
  reverse (map f l) = map f (reverse l).
Proof.
  induction l as [|x l IH]; [done|].
  simpl. by rewrite !reverse_cons, map_app, IH.
Qed.

Section RecentMessages.
Context {float : Type} (cfg : Config float).
Variable channel_history : Z → list DiscordMessage.

Lemma get_recent_messages_kept (limit : option Z) :
  get_recent_messages float cfg channel_history limit
  = map entry_of
      (reverse
         (List.filter kept_by_history
            (channel_history (get limit (MAX_MESSAGES_TO_SUMMARIZE cfg))))).
Proof.
  unfold get_recent_messages.
  by rewrite recent_loop_kept, app_nil_l, reverse_map.
Qed.

Lemma get_recent_messages_qualifying (limit : option Z) :
  Forall (λ msg, well_formed msg ∧ qualifying msg = true)
    (get_recent_messages float cfg channel_history limit).
Proof.
  rewrite get_recent_messages_kept.
  apply Forall_forall. intros m Hm. apply list_elem_of_In, in_map_iff in Hm
    as (e & <- & He).
  apply list_elem_of_In, elem_of_reverse, list_elem_of_In, List.filter_In in He
    as [_ Hkept].
  split; [split; by eexists|].
  unfold kept_by_history in Hkept. apply andb_prop in Hkept as [_ Hkept].
  exact Hkept.
Qed.

(** X19. get_recent_messages returns the entries of the messages the channel
    history yields that are not from a bot and have a content that is not
    blank, oldest first, the history being most recent first; every message
    it returns has an author and a content that is not blank, so that
    _format_conversation renders each of them. *)
Theorem get_recent_messages_chronological (limit : option Z) :
  get_recent_messages float cfg channel_history limit
  = map entry_of
      (reverse
         (List.filter kept_by_history
            (channel_history (get limit (MAX_MESSAGES_TO_SUMMARIZE cfg)))))
  ∧ Forall (λ msg, well_formed msg ∧ qualifying msg = true)
      (get_recent_messages float cfg channel_history limit).
Proof.
  split; [apply get_recent_messages_kept | apply get_recent_messages_qualifying].
Qed.

(** X20. The text built from the channel history on the way the summarize
    command takes, truncation with the configured budget and then
    formatting, is no longer than that budget when the budget is not
    negative. *)
Theorem recent_conversation_within_budget (limit : option Z) :
  0 ≤ MAX_MESSAGE_LENGTH cfg →
  PyStr.len
    (_format_conversation
       (truncate_conversation cfg
          (get_recent_messages float cfg channel_history limit) None))
  ≤ MAX_MESSAGE_LENGTH cfg.
Proof.
  intros Hbudget.
  pose proof (get_recent_messages_qualifying limit) as Hwf.
  destruct (truncate_conversation_spec cfg
              (get_recent_messages float cfg channel_history limit) None)
    as (dropped & Hsplit & Hsum & _).
  rewrite Hsplit in Hwf. apply Forall_app in Hwf as [_ Hwf].
  assert (Forall (λ msg, is_Some (author msg))
            (truncate_conversation cfg
               (get_recent_messages float cfg channel_history limit) None))
    as Hauth.
  { eapply Forall_impl; [exact Hwf|]. by intros m [[? _] _]. }
  pose proof (format_conversation_len _ Hauth) as Hlen.
  unfold budget in Hsum. simpl in Hsum.
  destruct (truncate_conversation cfg _ None) as [|m r].
  - exact Hbudget.
  - specialize (Hsum ltac:(discriminate)). lia.
Qed.
End RecentMessages.

(** ** The commands *)

Section CommandRuns.
Context {float : Type} (cfg : Config float).
Variable client_chat : chat_request float → outcome string.
Variable executor_fault : option exn.
Variable discord : discord_call → outcome unit.
Variable channel_history : Z → outcome (list DiscordMessage).

(** [summarize_conversation] always returns, and a summary it returns is
    never the empty string. *)
Lemma summarize_conversation_returns (messages : list Message)
    (w : world float) :
  ∃ summary w',
    summarize_conversation float cfg client_chat executor_fault messages w
    = (Returned summary, w')
    ∧ (∀ text, summary = Some text → PyStr.truthy text = true).
Proof.
  destruct messages as [|m l].
  - eexists _, _. split; [reflexivity|]. by intros text [= <-].
  - rewrite summarize_conversation_run by done.
    eexists _, _. split; [reflexivity|]. intros text.
    unfold expected_summary. destruct executor_fault; [done|].
    destruct (client_chat _) as [t|]; [|done].
    destruct (PyStr.truthy (PyStr.strip t)) eqn:Ht; [|done].
    by intros [= <-].
Qed.

(** The tail of both commands, from the summarization on, when the chat
    platform accepts the closing call. *)
Lemma command_tail (source : embed_source) (failed : notice) (ctx : Context)
    (messages : list Message) (s : session float) :
  (∀ call, discord call = Returned tt) →
  ∃ summary w',
    summarize_conversation float cfg client_chat executor_fault messages
      (inference s)
    = (Returned summary, w')
    ∧ cmd_bind
        (cmd_lift
           (summarize_conversation float cfg client_chat executor_fault
              messages))
        (λ summary,
           match summary with
           | Some text =>
               if PyStr.truthy text
               then cmd_call discord
                      (EditEmbed
                         (SummarizerCommands.summary_embed float cfg source
                            ctx messages text))
               else cmd_call discord (EditContent failed)
           | None => cmd_call discord (EditContent failed)
           end) s
      = (Returned tt,
         {| inference := w';
            outbox :=
              outbox s
              ++ [closing_call cfg source failed ctx messages summary] |}).
Proof.
  intros Hok.
  destruct (summarize_conversation_returns messages (inference s))
    as (summary & w' & Hrun & Htruthy).
  exists summary, w'. split; [done|].
  unfold cmd_bind, cmd_lift, cmd_call. rewrite Hrun.
  destruct summary as [text|]; cbn [inference outbox closing_call].
  - by rewrite (Htruthy text eq_refl), Hok.
  - by rewrite Hok.
Qed.

(** X22. summarize_cached on a channel that has no cached messages, never
    seen or with an empty list, sends the notice that nothing is cached and
    does nothing else: no loading message and no request to the inference
    service. *)
Theorem summarize_cached_nothing_cached
    (message_cache : gmap Z (list Message)) (ctx : Context)
    (s : session float) :
  snapshot message_cache (ctx_channel_id ctx) = [] →
  discord (CtxSend NoCachedMessages) = Returned tt →
  SummarizerCommands.summarize_cached float cfg client_chat executor_fault
    discord message_cache ctx s
  = (Returned tt,
     {| inference := inference s;
        outbox := outbox s ++ [CtxSend NoCachedMessages] |}).
Proof.
  unfold snapshot. intros Hempty Hok.
  unfold SummarizerCommands.summarize_cached, cmd_try_except, cmd_call.
  destruct (message_cache !! ctx_channel_id ctx) as [[|m l]|];
    [|done|]; by rewrite Hok.
Qed.

(** X23. summarize_cached on a channel with cached messages, when the chat
    platform accepts every call: it sends the loading message, summarizes the
    truncated cache and closes with the embed carrying the summary and the
    number of messages left after truncation, or with the failure text when
    there is no summary; nothing else is sent, and the command returns. *)
Theorem summarize_cached_run (message_cache : gmap Z (list Message))
    (ctx : Context) (s : session float) :
  snapshot message_cache (ctx_channel_id ctx) ≠ [] →
  (∀ call, discord call = Returned tt) →
  ∃ summary w',
    summarize_conversation float cfg client_chat executor_fault
      (truncate_conversation cfg
         (snapshot message_cache (ctx_channel_id ctx)) None) (inference s)
    = (Returned summary, w')
    ∧ SummarizerCommands.summarize_cached float cfg client_chat executor_fault
        discord message_cache ctx s
      = (Returned tt,
         {| inference := w';
            outbox :=
              outbox s
              ++ [CtxSend SummarizingCached;
                  closing_call cfg FromCache CachedSummaryFailed ctx
                    (truncate_conversation cfg
                       (snapshot message_cache (ctx_channel_id ctx)) None)
                    summary] |}).
Proof.
  unfold snapshot. intros Hne Hok.
  destruct (message_cache !! ctx_channel_id ctx) as [[|m l]|] eqn:Hcache;
    [done| |done]. simpl.
  destruct (command_tail FromCache CachedSummaryFailed ctx
              (truncate_conversation cfg (m :: l) None)
              {| inference := inference s;
                 outbox := outbox s ++ [CtxSend SummarizingCached] |} Hok)
    as (summary & w' & Hrun & Htail).
  exists summary, w'. split; [exact Hrun|].
  unfold SummarizerCommands.summarize_cached, cmd_try_except.
  rewrite Hcache. unfold cmd_bind at 1. unfold cmd_call at 1. rewrite Hok.
  rewrite Htail. cbn [inference outbox]. by rewrite <- app_assoc.
Qed.

(** X24. When the most recent cached message alone exceeds the configured
    budget, truncation leaves nothing, and summarize_cached reports the
    notice for an empty conversation as if it were a summary: the embed
    carries the text No messages to summarize. and zero messages analyzed,
    and no request is sent to the inference service. *)
Theorem summarize_cached_oversized_message
    (message_cache : gmap Z (list Message)) (ctx : Context)
    (older : list Message) (newest : Message) (s : session float) :
  message_cache !! ctx_channel_id ctx = Some (older ++ [newest]) →
  MAX_MESSAGE_LENGTH cfg < msg_length newest →
  (∀ call, discord call = Returned tt) →
  SummarizerCommands.summarize_cached float cfg client_chat executor_fault
    discord message_cache ctx s
  = (Returned tt,
     {| inference := inference s;
        outbox :=
          outbox s
          ++ [CtxSend SummarizingCached;
              EditEmbed
                {| embed_from := FromCache;
                   embed_description := "No messages to summarize.";
                   embed_timestamp := ctx_message_created_at ctx;
                   messages_analyzed := 0;
                   requested_by := ctx_author_display_name ctx;
                   embed_model := OLLAMA_MODEL cfg |}] |}).
Proof.
  intros Hcache Hover Hok.
  assert (truncate_conversation cfg (older ++ [newest]) None = []) as Htrunc.
  { apply truncate_conversation_empty. right. exists newest.
    split; [apply last_snoc | exact Hover]. }
  unfold SummarizerCommands.summarize_cached, cmd_try_except, cmd_bind,
    cmd_call, cmd_lift.
  rewrite Hcache.
  assert (∃ m l, older ++ [newest] = m :: l) as (m & l & Hcons)
    by (destruct older; simpl; eauto).
  rewrite Hcons in Htrunc |- *. rewrite Htrunc, !Hok.
  cbn [inference outbox summarize_conversation]. unfold ret.
  cbn [PyStr.truthy]. rewrite Hok. cbn [inference outbox].
  by rewrite <- app_assoc.
Qed.

(** X25. summarize_cached raises only when the chat platform refuses the
    error text of its own handler: whatever the inference service and the
    chat platform do otherwise, the command returns. *)
Theorem summarize_cached_returns (message_cache : gmap Z (list Message))
    (ctx : Context) (s : session float) :
  discord (CtxSend CachedSummarizeError) = Returned tt →
  ∃ s',
    SummarizerCommands.summarize_cached float cfg client_chat executor_fault
      discord message_cache ctx s
    = (Returned tt, s').
Proof.
  intros Herr.
  unfold SummarizerCommands.summarize_cached, cmd_try_except, cmd_bind,
    cmd_call, cmd_lift, print.
  destruct (message_cache !! ctx_channel_id ctx) as [[|m l]|].
  - destruct (discord (CtxSend NoCachedMessages)) as [[]|e];
      cbn [inference outbox]; [|rewrite Herr]; by eexists.
  - destruct (discord (CtxSend SummarizingCached)) as [[]|e];
      cbn [inference outbox]; [|rewrite Herr; by eexists].
    destruct (summarize_conversation_returns
                (truncate_conversation cfg (m :: l) None) (inference s))
      as (summary & w' & -> & _).
    cbn [inference outbox].
    destruct summary as [text|]; [destruct (PyStr.truthy text)|];
      match goal with
      | |- context [discord (EditEmbed ?e)] =>
          destruct (discord (EditEmbed e)) as [[]|?]
      | |- context [discord (EditContent ?n)] =>
          destruct (discord (EditContent n)) as [[]|?]
      end; cbn [inference outbox]; rewrite ?Herr; by eexists.
  - destruct (discord (CtxSend NoCachedMessages)) as [[]|e];
      cbn [inference outbox]; [|rewrite Herr]; by eexists.
Qed.

(** X26. The summarize command when the history is delivered and the chat
    platform accepts every call: it sends the loading message; when the
    history has no message that is kept it closes with the text that no
    messages were found and sends nothing to the inference service;
    otherwise it summarizes the truncated messages and closes with the embed
    carrying the summary and the number of messages left after truncation,
    or with the failure text when there is no summary. *)
Theorem summarize_command_run (ctx : Context) (limit : Z)
    (history : list DiscordMessage) (s : session float) :
  channel_history limit = Returned history →
  (∀ call, discord call = Returned tt) →
  (get_recent_messages float cfg (λ _, history) (Some limit) = [] →
   SummarizerCommands.summarize_conversation float cfg client_chat
     executor_fault discord channel_history ctx limit s
   = (Returned tt,
      {| inference := inference s;
         outbox :=
           outbox s ++ [CtxSend Analyzing; EditContent NoMessagesFound] |}))
  ∧ (get_recent_messages float cfg (λ _, history) (Some limit) ≠ [] →
     ∃ summary w',
       summarize_conversation float cfg client_chat executor_fault
         (truncate_conversation cfg
            (get_recent_messages float cfg (λ _, history) (Some limit)) None)
         (inference s)
       = (Returned summary, w')
       ∧ SummarizerCommands.summarize_conversation float cfg client_chat
           executor_fault discord channel_history ctx limit s
         = (Returned tt,
            {| inference := w';
               outbox :=
                 outbox s
                 ++ [CtxSend Analyzing;
                     closing_call cfg (FromChannel (ctx_channel_name ctx))
                       SummaryFailed ctx
                       (truncate_conversation cfg
                          (get_recent_messages float cfg (λ _, history)
                             (Some limit)) None)
                       summary] |})).
Proof.
  intros Hhist Hok.
  unfold SummarizerCommands.summarize_conversation, cmd_try_except, cmd_bind,
    cmd_call, cmd_lift, of_outcome.
  rewrite !Hok, Hhist. cbn [inference outbox].
  destruct (get_recent_messages float cfg (λ _, history) (Some limit))
    as [|m l] eqn:Hrecent.
  - split; [|done]. intros _. cbv beta iota. cbn [inference outbox].
    by rewrite <- app_assoc.
  - split; [done|]. intros _. cbv beta iota zeta. cbn [inference outbox].
    destruct (summarize_conversation_returns
                (truncate_conversation cfg (m :: l) None) (inference s))
      as (summary & w' & Hrun & Htruthy).
    exists summary, w'. split; [exact Hrun|]. rewrite Hrun.
    cbv beta iota. cbn [inference outbox].
    destruct summary as [text|]; cbn [closing_call].
    + rewrite (Htruthy text eq_refl), Hok. cbn [inference outbox].
      by rewrite <- app_assoc.
    + cbn [inference outbox]. by rewrite <- app_assoc.
Qed.

(** X27. When fetching the history raises, the summarize command prints the
    error, sends its error text after the loading message and returns; no
    request is sent to the inference service. *)
Theorem summarize_command_history_fails (ctx : Context) (limit : Z) (e : exn)
    (s : session float) :
  channel_history limit = Raised e →
  (∀ call, discord call = Returned tt) →
  SummarizerCommands.summarize_conversation float cfg client_chat
    executor_fault discord channel_history ctx limit s
  = (Returned tt,
     {| inference :=
          {| calls := calls (inference s);
             stdout :=
               stdout (inference s)
               ++ ["Error in summarize command: " +:+ exn_text e] |};
        outbox := outbox s ++ [CtxSend Analyzing; CtxSend SummarizeError] |}).
Proof.
  intros Hhist Hok.
  unfold SummarizerCommands.summarize_conversation, cmd_try_except, cmd_bind,
    cmd_call, cmd_lift, of_outcome, print.
  rewrite !Hok, Hhist. cbv beta iota. cbn [inference outbox stdout calls].
  by rewrite <- app_assoc.
Qed.

(** X28. The summarize command raises only when the chat platform refuses the
    error text of its own handler: whatever the history, the inference
    service and the chat platform do otherwise, the command returns. *)
Theorem summarize_command_returns (ctx : Context) (limit : Z)
    (s : session float) :
  discord (CtxSend SummarizeError) = Returned tt →
  ∃ s',
    SummarizerCommands.summarize_conversation float cfg client_chat
      executor_fault discord channel_history ctx limit s
    = (Returned tt, s').
Proof.
  intros Herr.
  unfold SummarizerCommands.summarize_conversation, cmd_try_except, cmd_bind,
    cmd_call, cmd_lift, of_outcome, print.
  destruct (discord (CtxSend Analyzing)) as [[]|e0];
    cbn [inference outbox]; [|rewrite Herr; by eexists].
  destruct (channel_history limit) as [history|e1];
    cbn [inference outbox]; [|rewrite Herr; by eexists].
  destruct (get_recent_messages float cfg (λ _, history) (Some limit))
    as [|m l].
  - destruct (discord (EditContent NoMessagesFound)) as [[]|e2];
      cbn [inference outbox]; rewrite ?Herr; by eexists.
  - cbv beta iota zeta. cbn [inference outbox].
    destruct (summarize_conversation_returns
                (truncate_conversation cfg (m :: l) None) (inference s))
      as (summary & w' & -> & _).
    cbn [inference outbox].
    destruct summary as [text|]; [destruct (PyStr.truthy text)|];
      match goal with
      | |- context [discord (EditEmbed ?e)] =>
          destruct (discord (EditEmbed e)) as [[]|?]
      | |- context [discord (EditContent ?n)] =>
          destruct (discord (EditContent n)) as [[]|?]
      end; cbn [inference outbox]; rewrite ?Herr; by eexists.
Qed.
End CommandRuns.

(** ** Instances *)

Lemma summarize_conversation_summary_trimmed_witness :
  PyStr.strip "A greets B." = "A greets B." ∧ "A greets B." ≠ "".
Proof.
  eapply (summarize_conversation_summary_trimmed default_config sample_service
            None [mk_message "A" "hello" 0] initial_world).
  vm_compute. reflexivity.
Defined.

Lemma summarize_conversation_requests_witness :
  calls (summarize_conversation dyadic default_config sample_service None
           [mk_message "A" "hello" 0] initial_world).2
  = [summarization_request default_config [mk_message "A" "hello" 0]].
Proof.
  apply (summarize_conversation_requests default_config sample_service None
           [mk_message "A" "hello" 0] initial_world).
  discriminate.
Defined.

Lemma summarize_conversation_diagnostics_witness :
  stdout (summarize_conversation dyadic default_config
            (λ _, Raised (Exception "connection refused")) None
            [mk_message "A" "hello" 0] initial_world).2
  = ["Error in Ollama call: connection refused"].
Proof.
  apply (summarize_conversation_diagnostics default_config
           (λ _, Raised (Exception "connection refused")) None
           [mk_message "A" "hello" 0] initial_world).
  discriminate.
Defined.

Lemma summarize_conversation_blank_messages_witness :
  calls (summarize_conversation dyadic default_config sample_service None
           [mk_message "A" "   " 0] initial_world).2
  = [summarization_request default_config []].
Proof.
  apply (summarize_conversation_blank_messages default_config sample_service
           None [mk_message "A" "   " 0] initial_world).
  - discriminate.
  - repeat constructor.
  - reflexivity.
Defined.

Lemma on_message_other_channel_witness :
  on_message dyadic default_config sample_cache m3 !! 8 = sample_cache !! 8.
Proof.
  apply (on_message_other_channel default_config sample_cache m3 8).
  discriminate.
Defined.

Lemma on_messages_keeps_most_recent_witness :
  snapshot (on_messages (config_with_cache_bound 3) ∅ [m1; m2; m3; m4]) 7
  = lastn 3 (recorded 7 [m1; m2; m3; m4])
  ∧ Z.of_nat
      (length
         (snapshot (on_messages (config_with_cache_bound 3) ∅ [m1; m2; m3; m4])
            7))
    ≤ 3.
Proof.
  apply (on_messages_keeps_most_recent (config_with_cache_bound 3)
           [m1; m2; m3; m4] 7).
  simpl. lia.
Defined.

Lemma on_message_newest_last_witness :
  last (snapshot (on_message dyadic default_config sample_cache m3) 7)
  = Some (entry_of m3).
Proof.
  apply (on_message_newest_last default_config sample_cache m3).
  - reflexivity.
  - simpl. lia.
Defined.

Lemma on_messages_negative_bound_witness :
  snapshot (on_messages (config_with_cache_bound (-2)) ∅ [m1; m2; m3]) 7 = [].
Proof.
  apply (on_messages_negative_bound (config_with_cache_bound (-2))
           [m1; m2; m3] 7).
  simpl. lia.
Defined.

Lemma cached_conversation_within_budget_witness :
  PyStr.len
    (_format_conversation
       (truncate_conversation default_config
          (snapshot (on_messages default_config ∅ [m1; m2]) 7) None))
  ≤ 2000.
Proof.
  apply (cached_conversation_within_budget default_config [m1; m2] 7).
  simpl. lia.
Defined.

Lemma recent_conversation_within_budget_witness :
  PyStr.len
    (_format_conversation
       (truncate_conversation default_config
          (get_recent_messages dyadic default_config (λ _, [m2; m1]) None)
          None))
  ≤ 2000.
Proof.
  apply (recent_conversation_within_budget default_config (λ _, [m2; m1]) None).
  simpl. lia.
Defined.

Lemma summarize_cached_nothing_cached_witness :
  SummarizerCommands.summarize_cached dyadic default_config sample_service
    None accepting ∅ sample_ctx initial_session
  = (Returned tt,
     {| inference := initial_world; outbox := [CtxSend NoCachedMessages] |}).
Proof.
  apply (summarize_cached_nothing_cached default_config sample_service None
           accepting ∅ sample_ctx initial_session); reflexivity.
Defined.

Lemma summarize_cached_run_witness :
  ∃ summary w',
    summarize_conversation dyadic default_config sample_service None
      (truncate_conversation default_config (snapshot sample_cache 7) None)
      initial_world
    = (Returned summary, w')
    ∧ SummarizerCommands.summarize_cached dyadic default_config sample_service
        None accepting sample_cache sample_ctx initial_session
      = (Returned tt,
         {| inference := w';
            outbox :=
              [CtxSend SummarizingCached;
               closing_call default_config FromCache CachedSummaryFailed
                 sample_ctx
                 (truncate_conversation default_config
                    (snapshot sample_cache 7) None)
                 summary] |}).
Proof.
  apply (summarize_cached_run default_config sample_service None accepting
           sample_cache sample_ctx initial_session).
  - vm_compute. discriminate.
  - reflexivity.
Defined.

Lemma summarize_cached_oversized_message_witness :
  SummarizerCommands.summarize_cached dyadic (config_with_budget 10)
    sample_service None accepting
    (<[7 := [entry_of m1] ++ [mk_message "ann" "long text" 2]]> ∅)
    sample_ctx initial_session
  = (Returned tt,
     {| inference := initial_world;
        outbox :=
          [CtxSend SummarizingCached;
           EditEmbed
             {| embed_from := FromCache;
                embed_description := "No messages to summarize.";
                embed_timestamp := 9;
                messages_analyzed := 0;
                requested_by := "ann";
                embed_model := "mistral" |}] |}).
Proof.
  apply (summarize_cached_oversized_message (config_with_budget 10)
           sample_service None accepting
           (<[7 := [entry_of m1] ++ [mk_message "ann" "long text" 2]]> ∅)
           sample_ctx [entry_of m1] (mk_message "ann" "long text" 2)
           initial_session).
  - reflexivity.
  - vm_compute. reflexivity.
  - reflexivity.
Defined.

Lemma summarize_cached_returns_witness :
  ∃ s',
    SummarizerCommands.summarize_cached dyadic default_config sample_service
      None accepting sample_cache sample_ctx initial_session
    = (Returned tt, s').
Proof.
  apply (summarize_cached_returns default_config sample_service None accepting
           sample_cache sample_ctx initial_session).
  reflexivity.
Defined.

Lemma summarize_command_run_witness :
  ∃ summary w',
    summarize_conversation dyadic default_config sample_service None
      (truncate_conversation default_config
         (get_recent_messages dyadic default_config (λ _, [m2; m1]) (Some 20))
         None)
      initial_world
    = (Returned summary, w')
    ∧ SummarizerCommands.summarize_conversation dyadic default_config
        sample_service None accepting (λ _, Returned [m2; m1]) sample_ctx 20
        initial_session
      = (Returned tt,
         {| inference := w';
            outbox :=
              [CtxSend Analyzing;
               closing_call default_config (FromChannel "general")
                 SummaryFailed sample_ctx
                 (truncate_conversation default_config
                    (get_recent_messages dyadic default_config
                       (λ _, [m2; m1]) (Some 20)) None)
                 summary] |}).
Proof.
  apply (summarize_command_run default_config sample_service None accepting
           (λ _, Returned [m2; m1]) sample_ctx 20 [m2; m1] initial_session).
  - reflexivity.
  - reflexivity.
  - vm_compute. discriminate.
Defined.

Lemma summarize_command_history_fails_witness :
  SummarizerCommands.summarize_conversation dyadic default_config
    sample_service None accepting (λ _, Raised (Exception "forbidden"))
    sample_ctx 20 initial_session
  = (Returned tt,
     {| inference :=
          {| calls := [];
             stdout := ["Error in summarize command: forbidden"] |};
        outbox := [CtxSend Analyzing; CtxSend SummarizeError] |}).
Proof.
  apply (summarize_command_history_fails default_config sample_service None
           accepting (λ _, Raised (Exception "forbidden")) sample_ctx 20
           (Exception "forbidden") initial_session); reflexivity.
Defined.

Lemma summarize_command_returns_witness :
  ∃ s',
    SummarizerCommands.summarize_conversation dyadic default_config
      sample_service None accepting (λ _, Returned [m2; m1]) sample_ctx 20
      initial_session
    = (Returned tt, s').
Proof.
  apply (summarize_command_returns default_config sample_service None accepting
           (λ _, Returned [m2; m1]) sample_ctx 20 initial_session).
  reflexivity.
Defined.

Lemma test_connection_never_raises_witness :
  ∃ ok w',
    test_connection dyadic (Some (Exception "no executor")) (Returned tt)
      initial_world
    = (Returned ok, w')
    ∧ calls w' = calls (initial_world (float := dyadic))
    ∧ (ok = true
       ↔ Some (Exception "no executor") = None
         ∧ Returned tt = Returned (A := unit) tt)
    ∧ (ok = true → stdout w' = stdout (initial_world (float := dyadic)))
    ∧ (ok = false →
       ∃ line, stdout w' = stdout (initial_world (float := dyadic)) ++ [line]).
Proof.
  apply (test_connection_never_raises (Some (Exception "no executor"))
           (Returned tt) (initial_world (float := dyadic))).
Defined.
